(** * Coffee_Machine: containers, recipe, policies and the orchestrator

    A shallow embedding of the Python package [src/coffee_machine] and of
    the properties its specification states about it.

    Python [int] is [Z]; a Python object with mutable attributes is a record
    threaded through a small state-and-exception monad in which the object
    survives a raised exception (as it does in Python); [datetime] and
    [timedelta] values are integers counting microseconds, and the clock read
    by [datetime.utcnow()] is an explicit argument [now]. *)

From Stdlib Require Import ZArith Lia ZifyBool Bool List.
From stdpp Require Import base option strings gmap.

Open Scope Z_scope.

(** ** Exceptions ([src/errors.py] and the built-in ones the package raises) *)

Inductive Exn : Type :=
  | InvalidWaterTankConfigError
  | InvalidWaterOperationError
  | NotEnoughWaterError
  | InvalidBeanContainerConfigError
  | InvalidBeanOperationError
  | NotEnoughBeansError
  | InvalidRecipeError   (* imported by coffee_recipe.py from src.errors *)
  | ValueError
  | RuntimeError.

(** ** Results of calls *)

(** What a call gives back: a value, or a raised exception. *)
Inductive outcome (A : Type) : Type :=
  | Returned (a : A)
  | Raised (e : Exn).
Arguments Returned {A} a.
Arguments Raised {A} e.

(** A method of an object of type [S]: it gives an outcome and the object
    as the call leaves it, also when the call raises. *)
Definition Py (S A : Type) : Type := S -> outcome A * S.

Definition ret {S A} (a : A) : Py S A := fun s => (Returned a, s).
Definition raise {S A} (e : Exn) : Py S A := fun s => (Raised e, s).
Definition bind {S A B} (c : Py S A) (k : A -> Py S B) : Py S B :=
  fun s => match c s with
           | (Returned a, s') => k a s'
           | (Raised e, s') => (Raised e, s')
           end.
Definition get {S} : Py S S := fun s => (Returned s, s).
Definition modify {S} (f : S -> S) : Py S unit := fun s => (Returned tt, f s).

(** A method call on an attribute: [rd] reads the attribute, [wr] stores
    the object the call leaves behind. *)
Definition on_attr {S T A} (rd : S -> T) (wr : T -> S -> S) (c : Py T A)
  : Py S A :=
  fun s => let '(r, t') := c (rd s) in (r, wr t' s).

Notation "'let!' x ':=' c 'in' k" := (bind c (fun x => k))
  (at level 10, x name, c at level 100, k at level 200).
Notation "c ';>' k" := (bind c (fun _ => k))
  (at level 100, k at level 200, right associativity).

(** A constructor call: there is no object yet, only an outcome. *)
Definition obind {A B} (o : outcome A) (k : A -> outcome B) : outcome B :=
  match o with
  | Returned a => k a
  | Raised e => Raised e
  end.

(** ** [water_tank.py] *)

Module WaterTank.

Inductive WaterTankRefillStatus : Type := NOW_FULL | STILL_NOT_FULL.

Record t : Type := Build {
  _maximum_level : Z;
  _current_level : Z
}.

Definition __init__ (maximum_level initial_level : Z) : outcome t :=
  if maximum_level <=? 0 then Raised InvalidWaterTankConfigError
  else if initial_level <? 0 then Raised InvalidWaterTankConfigError
  else if initial_level >? maximum_level
       then Raised InvalidWaterTankConfigError
  else Returned {| _maximum_level := maximum_level;
                   _current_level := initial_level |}.

Definition missing_capacity (self : t) : Z :=
  _maximum_level self - _current_level self.
Definition current_level (self : t) : Z := _current_level self.
Definition maximum_level (self : t) : Z := _maximum_level self.

Definition set_current (v : Z) (self : t) : t :=
  {| _maximum_level := _maximum_level self; _current_level := v |}.

Definition consume_water (use_level : Z) : Py t unit :=
  if use_level <=? 0 then raise InvalidWaterOperationError
  else
    let! self := get in
    if _current_level self - use_level >=? 0
    then modify (fun s => set_current (_current_level s - use_level) s)
    else raise NotEnoughWaterError.

Definition refill (refill_level : Z) : Py t WaterTankRefillStatus :=
  if refill_level <=? 0 then raise InvalidWaterOperationError
  else
    let! self := get in
    let new_level := _current_level self + refill_level in
    if new_level >=? _maximum_level self
    then modify (set_current (_maximum_level self)) ;> ret NOW_FULL
    else modify (fun s => set_current (_current_level s + refill_level) s)
         ;> ret STILL_NOT_FULL.

Definition is_empty (self : t) : bool := _current_level self =? 0.
Definition is_full (self : t) : bool :=
  _current_level self =? _maximum_level self.

End WaterTank.

(** ** [bean_container.py] *)

Module BeanContainer.

Inductive BeanContainerRefillStatus : Type := NOW_FULL | STILL_NOT_FULL.

Record t : Type := Build {
  _maximum_grams : Z;
  _current_grams : Z
}.

Definition __init__ (maximum_grams initial_grams : Z) : outcome t :=
  if maximum_grams <=? 0 then Raised InvalidBeanContainerConfigError
  else if initial_grams <? 0 then Raised InvalidBeanContainerConfigError
  else if initial_grams >? maximum_grams
       then Raised InvalidBeanContainerConfigError
  else Returned {| _maximum_grams := maximum_grams;
                   _current_grams := initial_grams |}.

Definition missing_capacity (self : t) : Z :=
  _maximum_grams self - _current_grams self.
Definition current_level (self : t) : Z := _current_grams self.
Definition maximum_level (self : t) : Z := _maximum_grams self.

Definition set_current (v : Z) (self : t) : t :=
  {| _maximum_grams := _maximum_grams self; _current_grams := v |}.

Definition consume_beans (amount_grams : Z) : Py t unit :=
  if amount_grams <=? 0 then raise InvalidBeanOperationError
  else
    let! self := get in
    if _current_grams self - amount_grams >=? 0
    then modify (fun s => set_current (_current_grams s - amount_grams) s)
    else raise NotEnoughBeansError.

Definition refill (refill_grams : Z) : Py t BeanContainerRefillStatus :=
  if refill_grams <=? 0 then raise InvalidBeanOperationError
  else
    let! self := get in
    let new_level := _current_grams self + refill_grams in
    if new_level >=? _maximum_grams self
    then modify (set_current (_maximum_grams self)) ;> ret NOW_FULL
    else modify (set_current new_level) ;> ret STILL_NOT_FULL.

Definition is_empty (self : t) : bool := _current_grams self =? 0.
Definition is_full (self : t) : bool :=
  _current_grams self =? _maximum_grams self.

End BeanContainer.

(** ** [coffee_recipe.py] *)

Inductive CoffeeRecipeGrindLevel : Type := FINE | MEDIUM | COARSE.

Definition MAX_WATER_ML : Z := 2000.
Definition MAX_BEANS_G : Z := 500.

Record CoffeeRecipe : Type := {
  name : string;
  water_ml : Z;
  beans_g : Z;
  grind : option CoffeeRecipeGrindLevel
}.

(** The characters [str.strip()] removes, for code points below 256. *)
Definition py_isspace (c : Ascii.ascii) : bool :=
  let n := Z.of_N (Ascii.N_of_ascii c) in
  ((9 <=? n) && (n <=? 13)) || ((28 <=? n) && (n <=? 32))
  || (n =? 133) || (n =? 160).

(** [not name.strip()]: nothing is left once the white space is removed. *)
Definition strip_is_empty (s : string) : bool :=
  forallb py_isspace (String.list_ascii_of_string s).

(** The dataclass constructor followed by [__post_init__]; the
    [isinstance] tests hold by typing. *)
Definition CoffeeRecipe__init__ (name : string) (water_ml beans_g : Z)
    (grind : option CoffeeRecipeGrindLevel) : outcome CoffeeRecipe :=
  if strip_is_empty name then Raised InvalidRecipeError
  else if (water_ml <? 0) || (water_ml >? MAX_WATER_ML)
       then Raised InvalidRecipeError
  else if (beans_g <? 0) || (beans_g >? MAX_BEANS_G)
       then Raised InvalidRecipeError
  else Returned {| name := name; water_ml := water_ml;
                   beans_g := beans_g; grind := grind |}.

Definition requires_water (self : CoffeeRecipe) : bool := water_ml self >? 0.
Definition requires_beans (self : CoffeeRecipe) : bool := beans_g self >? 0.

(** ** [policies/brew_policy.py] *)

Inductive BrewDecision : Type :=
  | OK | OUT_OF_WATER | OUT_OF_BEANS | RECIPE_FORBIDDEN | NEEDS_CLEANING
  | ERROR.

(** [decision.name] *)
Definition BrewDecision_name (d : BrewDecision) : string :=
  match d with
  | OK => "OK"
  | OUT_OF_WATER => "OUT_OF_WATER"
  | OUT_OF_BEANS => "OUT_OF_BEANS"
  | RECIPE_FORBIDDEN => "RECIPE_FORBIDDEN"
  | NEEDS_CLEANING => "NEEDS_CLEANING"
  | ERROR => "ERROR"
  end.

#[global] Instance BrewDecision_eq_dec : EqDecision BrewDecision.
Proof. solve_decision. Defined.

(** The [maintenance_state] argument: [None], or a dict from keys to
    integers. *)
Abbreviation MaintenanceState := (option (gmap string Z)).

(** The abstract class [BrewPolicy]: an evaluator that mutates nothing and
    returns a [BrewDecision]. *)
Class BrewPolicy (P : Type) : Type :=
  can_brew : P -> CoffeeRecipe -> Z -> Z -> MaintenanceState -> BrewDecision.

Record DefaultBrewPolicy : Type := {
  clean_threshold : Z;
  allow_recipe_with_no_requirements : bool
}.

Definition DefaultBrewPolicy__init__ (clean_threshold : Z)
    (allow_recipe_with_no_requirements : bool) : outcome DefaultBrewPolicy :=
  if clean_threshold <? 0 then Raised ValueError
  else Returned
         {| clean_threshold := clean_threshold;
            allow_recipe_with_no_requirements :=
              allow_recipe_with_no_requirements |}.

(** [maintenance_state or {}]: [None] and the empty dict are falsy. *)
Definition or_empty_dict (maintenance_state : MaintenanceState)
  : gmap string Z :=
  match maintenance_state with
  | None => ∅
  | Some d => if decide (d = ∅) then ∅ else d
  end.

(** [d.get(key, default)] *)
Definition dict_get (d : gmap string Z) (key : string) (default : Z) : Z :=
  match d !! key with
  | Some v => v
  | None => default
  end.

Definition DefaultBrewPolicy_can_brew (self : DefaultBrewPolicy)
    (recipe : CoffeeRecipe) (water_available_ml beans_available_g : Z)
    (maintenance_state : MaintenanceState) : BrewDecision :=
  let maintenance_state := or_empty_dict maintenance_state in
  let dirty_count := dict_get maintenance_state "dirty_count" 0 in
  let requires_water := requires_water recipe in
  let requires_beans := requires_beans recipe in
  if negb requires_water && negb requires_beans then
    if allow_recipe_with_no_requirements self then OK else RECIPE_FORBIDDEN
  else if requires_water && (water_available_ml <? water_ml recipe) then
    OUT_OF_WATER
  else if requires_beans && (beans_available_g <? beans_g recipe) then
    OUT_OF_BEANS
  else if dirty_count >=? clean_threshold self then NEEDS_CLEANING
  else OK.

#[global] Instance DefaultBrewPolicy_BrewPolicy : BrewPolicy DefaultBrewPolicy :=
  DefaultBrewPolicy_can_brew.

(** ** [policies/cleaning_policy.py] *)

Inductive CleaningAction : Type := NO_ACTION | SCHEDULE | IMMEDIATE.

(** The abstract class [CleaningPolicy]; [now] is what the clock shows when
    the method runs. *)
Class CleaningPolicy (P : Type) : Type :=
  evaluate : P -> Z -> Z -> option Z -> CleaningAction.

Record DefaultCleaningPolicy : Type := {
  schedule_threshold : Z;
  immediate_threshold : Z;
  max_time_between_cleans : option Z
}.

Definition DefaultCleaningPolicy__init__
    (schedule_threshold immediate_threshold : Z)
    (max_time_between_cleans : option Z) : outcome DefaultCleaningPolicy :=
  if negb ((0 <=? schedule_threshold)
           && (schedule_threshold <=? immediate_threshold))
  then Raised ValueError
  else Returned {| schedule_threshold := schedule_threshold;
                   immediate_threshold := immediate_threshold;
                   max_time_between_cleans := max_time_between_cleans |}.

(** [x or 0] on an integer *)
Definition or_zero (x : Z) : Z := if x =? 0 then 0 else x.

Definition DefaultCleaningPolicy_evaluate (self : DefaultCleaningPolicy)
    (now : Z) (dirty_count : Z) (last_cleaned_ts : option Z)
  : CleaningAction :=
  let dirty_count := or_zero dirty_count in
  let elapsed :=
    match max_time_between_cleans self, last_cleaned_ts with
    | Some max_interval, Some ts => now - ts >=? max_interval
    | _, _ => false
    end in
  if elapsed then IMMEDIATE
  else if dirty_count <? schedule_threshold self then NO_ACTION
  else if dirty_count <? immediate_threshold self then SCHEDULE
  else IMMEDIATE.

#[global] Instance DefaultCleaningPolicy_CleaningPolicy
  : CleaningPolicy DefaultCleaningPolicy := DefaultCleaningPolicy_evaluate.

(** ** [policies/refill_policy.py] *)

Inductive RefillResult : Type :=
  | NOW_FULL | STILL_NOT_FULL | OVERFLOW_ERROR.

(** The abstract class [RefillPolicy]. *)
Class RefillPolicy (P : Type) : Type :=
  on_refill : P -> Z -> Z -> Z -> outcome (Z * RefillResult).

Inductive CapRefillPolicy : Type := CapRefillPolicy__init__.
Inductive StrictRefillPolicy : Type := StrictRefillPolicy__init__.

Definition CapRefillPolicy_on_refill (self : CapRefillPolicy)
    (current_level refill_amount maximum : Z) : outcome (Z * RefillResult) :=
  if refill_amount <=? 0 then Raised ValueError
  else
    let new_level := current_level + refill_amount in
    if new_level >=? maximum then Returned (maximum, NOW_FULL)
    else Returned (new_level, STILL_NOT_FULL).

Definition StrictRefillPolicy_on_refill (self : StrictRefillPolicy)
    (current_level refill_amount maximum : Z) : outcome (Z * RefillResult) :=
  if refill_amount <=? 0 then Raised ValueError
  else
    let new_level := current_level + refill_amount in
    if new_level >? maximum then Returned (current_level, OVERFLOW_ERROR)
    else if new_level =? maximum then Returned (maximum, NOW_FULL)
    else Returned (new_level, STILL_NOT_FULL).

#[global] Instance CapRefillPolicy_RefillPolicy : RefillPolicy CapRefillPolicy :=
  CapRefillPolicy_on_refill.
#[global] Instance StrictRefillPolicy_RefillPolicy
  : RefillPolicy StrictRefillPolicy := StrictRefillPolicy_on_refill.

(** ** [coffee_machine.py] *)

Record SimpleCoffeeMachine (BP CP RP : Type) : Type := {
  water_tank : WaterTank.t;
  bean_container : BeanContainer.t;
  brew_policy : BP;
  cleaning_policy : CP;
  refill_policy : RP;
  state : string;
  active_recipe : option CoffeeRecipe;
  dirty_count : Z;
  last_cleaned_ts : option Z;
  cleaning_scheduled : bool
}.
Arguments water_tank {BP CP RP} _.
Arguments bean_container {BP CP RP} _.
Arguments brew_policy {BP CP RP} _.
Arguments cleaning_policy {BP CP RP} _.
Arguments refill_policy {BP CP RP} _.
Arguments state {BP CP RP} _.
Arguments active_recipe {BP CP RP} _.
Arguments dirty_count {BP CP RP} _.
Arguments last_cleaned_ts {BP CP RP} _.
Arguments cleaning_scheduled {BP CP RP} _.

Section Machine.
Context {BP CP RP : Type}.
Context `{!BrewPolicy BP, !CleaningPolicy CP, !RefillPolicy RP}.

Local Abbreviation Machine := (SimpleCoffeeMachine BP CP RP).

Definition SimpleCoffeeMachine__init__ (water_tank : WaterTank.t)
    (bean_container : BeanContainer.t) (brew_policy : BP)
    (cleaning_policy : CP) (refill_policy : RP) : Machine :=
  {| water_tank := water_tank;
     bean_container := bean_container;
     brew_policy := brew_policy;
     cleaning_policy := cleaning_policy;
     refill_policy := refill_policy;
     state := "IDLE";
     active_recipe := None;
     dirty_count := 0;
     last_cleaned_ts := None;
     cleaning_scheduled := false |}.

(** Attribute assignments [self.x = v] *)
Definition set_water_tank (v : WaterTank.t) (self : Machine) : Machine :=
  {| water_tank := v;
     bean_container := bean_container self;
     brew_policy := brew_policy self;
     cleaning_policy := cleaning_policy self;
     refill_policy := refill_policy self;
     state := state self;
     active_recipe := active_recipe self;
     dirty_count := dirty_count self;
     last_cleaned_ts := last_cleaned_ts self;
     cleaning_scheduled := cleaning_scheduled self |}.

Definition set_bean_container (v : BeanContainer.t) (self : Machine)
  : Machine :=
  {| water_tank := water_tank self;
     bean_container := v;
     brew_policy := brew_policy self;
     cleaning_policy := cleaning_policy self;
     refill_policy := refill_policy self;
     state := state self;
     active_recipe := active_recipe self;
     dirty_count := dirty_count self;
     last_cleaned_ts := last_cleaned_ts self;
     cleaning_scheduled := cleaning_scheduled self |}.

Definition set_state (v : string) (self : Machine) : Machine :=
  {| water_tank := water_tank self;
     bean_container := bean_container self;
     brew_policy := brew_policy self;
     cleaning_policy := cleaning_policy self;
     refill_policy := refill_policy self;
     state := v;
     active_recipe := active_recipe self;
     dirty_count := dirty_count self;
     last_cleaned_ts := last_cleaned_ts self;
     cleaning_scheduled := cleaning_scheduled self |}.

Definition set_active_recipe (v : option CoffeeRecipe) (self : Machine)
  : Machine :=
  {| water_tank := water_tank self;
     bean_container := bean_container self;
     brew_policy := brew_policy self;
     cleaning_policy := cleaning_policy self;
     refill_policy := refill_policy self;
     state := state self;
     active_recipe := v;
     dirty_count := dirty_count self;
     last_cleaned_ts := last_cleaned_ts self;
     cleaning_scheduled := cleaning_scheduled self |}.

Definition set_dirty_count (v : Z) (self : Machine) : Machine :=
  {| water_tank := water_tank self;
     bean_container := bean_container self;
     brew_policy := brew_policy self;
     cleaning_policy := cleaning_policy self;
     refill_policy := refill_policy self;
     state := state self;
     active_recipe := active_recipe self;
     dirty_count := v;
     last_cleaned_ts := last_cleaned_ts self;
     cleaning_scheduled := cleaning_scheduled self |}.

Definition set_last_cleaned_ts (v : option Z) (self : Machine) : Machine :=
  {| water_tank := water_tank self;
     bean_container := bean_container self;
     brew_policy := brew_policy self;
     cleaning_policy := cleaning_policy self;
     refill_policy := refill_policy self;
     state := state self;
     active_recipe := active_recipe self;
     dirty_count := dirty_count self;
     last_cleaned_ts := v;
     cleaning_scheduled := cleaning_scheduled self |}.

Definition set_cleaning_scheduled (v : bool) (self : Machine) : Machine :=
  {| water_tank := water_tank self;
     bean_container := bean_container self;
     brew_policy := brew_policy self;
     cleaning_policy := cleaning_policy self;
     refill_policy := refill_policy self;
     state := state self;
     active_recipe := active_recipe self;
     dirty_count := dirty_count self;
     last_cleaned_ts := last_cleaned_ts self;
     cleaning_scheduled := v |}.

Definition select_recipe (recipe : CoffeeRecipe) : Py Machine unit :=
  modify (set_active_recipe (Some recipe)).

Definition brew (now : Z) : Py Machine BrewDecision :=
  let! self := get in
  match active_recipe self with
  | None => raise RuntimeError
  | Some recipe =>
    let decision :=
      can_brew (brew_policy self) recipe
        (WaterTank.current_level (water_tank self))
        (BeanContainer.current_level (bean_container self))
        (Some {[ "dirty_count" := dirty_count self ]}) in
    if decide (decision ≠ OK) then
      modify (set_state (BrewDecision_name decision)) ;> ret decision
    else
      (if requires_water recipe
       then on_attr water_tank set_water_tank
              (WaterTank.consume_water (water_ml recipe))
       else ret tt) ;>
      (if requires_beans recipe
       then on_attr bean_container set_bean_container
              (BeanContainer.consume_beans (beans_g recipe))
       else ret tt) ;>
      modify (fun s => set_dirty_count (dirty_count s + 1) s) ;>
      let! self := get in
      let cleaning_action :=
        evaluate (cleaning_policy self) now
          (dirty_count self) (last_cleaned_ts self) in
      match cleaning_action with
      | IMMEDIATE => modify (set_state "NEEDS_CLEANING")
      | SCHEDULE =>
          modify (set_cleaning_scheduled true) ;> modify (set_state "IDLE")
      | NO_ACTION => modify (set_state "IDLE")
      end ;>
      ret OK
  end.

Definition clean (now : Z) : Py Machine unit :=
  modify (set_dirty_count 0) ;>
  modify (set_last_cleaned_ts (Some now)) ;>
  modify (set_cleaning_scheduled false) ;>
  modify (set_state "IDLE").

Definition schedule_cleaning : Py Machine unit :=
  modify (set_cleaning_scheduled true).

Definition refill_water (amount : Z)
  : Py Machine WaterTank.WaterTankRefillStatus :=
  on_attr water_tank set_water_tank (WaterTank.refill amount).

Definition refill_beans (amount : Z)
  : Py Machine BeanContainer.BeanContainerRefillStatus :=
  on_attr bean_container set_bean_container (BeanContainer.refill amount).

End Machine.

(** ** Callers *)

(** A call a client makes on a container. *)
Inductive ContainerCall : Type :=
  | Consume (amount : Z)
  | Refill (amount : Z).

Definition WaterTank_call (c : ContainerCall) : Py WaterTank.t unit :=
  match c with
  | Consume amount => WaterTank.consume_water amount
  | Refill amount => WaterTank.refill amount ;> ret tt
  end.

Definition BeanContainer_call (c : ContainerCall) : Py BeanContainer.t unit :=
  match c with
  | Consume amount => BeanContainer.consume_beans amount
  | Refill amount => BeanContainer.refill amount ;> ret tt
  end.

(** The object after a client made the calls [cs] one after the other,
    catching whatever a call raised and going on (as the loop of [run.py]
    does). *)
Definition after_calls {S} (call : ContainerCall -> Py S unit)
    (cs : list ContainerCall) (s : S) : S :=
  fold_left (fun s c => snd (call c s)) cs s.

(** The class invariant the two containers document. *)
Definition WaterTank_invariant (self : WaterTank.t) : Prop :=
  0 <= WaterTank.current_level self <= WaterTank.maximum_level self.

Definition BeanContainer_invariant (self : BeanContainer.t) : Prop :=
  0 <= BeanContainer.current_level self <= BeanContainer.maximum_level self.

(** ** Objects of the scenarios *)

(** A machine as [run.py] builds it: a tank of 150 ml out of 500, a container
    of 50 g out of 500, the default policies configured with the given
    thresholds, and the espresso recipe selected. *)
Definition machine_with (clean_threshold : Z) (schedule_threshold : Z)
    (immediate_threshold : Z) (max_time_between_cleans : option Z)
  : outcome (SimpleCoffeeMachine DefaultBrewPolicy DefaultCleaningPolicy
                                 CapRefillPolicy) :=
  obind (WaterTank.__init__ 500 150) (fun water =>
  obind (BeanContainer.__init__ 500 50) (fun beans =>
  obind (DefaultBrewPolicy__init__ clean_threshold false) (fun brew_policy =>
  obind (DefaultCleaningPolicy__init__ schedule_threshold immediate_threshold
           max_time_between_cleans) (fun cleaning_policy =>
  obind (CoffeeRecipe__init__ "espresso" 30 8 None) (fun espresso =>
  Returned
    (snd (select_recipe espresso
            (SimpleCoffeeMachine__init__ water beans brew_policy
               cleaning_policy CapRefillPolicy__init__)))))))).

(** The keyword defaults of [DefaultBrewPolicy()] and
    [DefaultCleaningPolicy()]. *)
Definition default_machine := machine_with 100 80 120 None.

(** The thresholds [run.py] passes; seven days in microseconds. *)
Definition cli_machine := machine_with 5 3 6 (Some 604800000000).

(** A brew policy from outside the package: a subclass of [BrewPolicy] whose
    [can_brew] mutates nothing and answers OK without looking at the
    levels. *)
Inductive TrustingBrewPolicy : Type := TrustingBrewPolicy__init__.

#[global] Instance TrustingBrewPolicy_BrewPolicy
  : BrewPolicy TrustingBrewPolicy := fun _ _ _ _ _ => OK.

(** A machine with that policy and 20 ml of water, a ristretto's worth, with
    the espresso selected. *)
Definition trusting_machine
  : SimpleCoffeeMachine TrustingBrewPolicy DefaultCleaningPolicy
                        CapRefillPolicy :=
  snd (select_recipe
         {| name := "espresso"; water_ml := 30; beans_g := 8; grind := None |}
         (SimpleCoffeeMachine__init__
            {| WaterTank._maximum_level := 500;
               WaterTank._current_level := 20 |}
            {| BeanContainer._maximum_grams := 500;
               BeanContainer._current_grams := 50 |}
            TrustingBrewPolicy__init__
            {| schedule_threshold := 80; immediate_threshold := 120;
               max_time_between_cleans := None |}
            CapRefillPolicy__init__)).

(** When the time-based rule of [DefaultCleaningPolicy.evaluate] does not
    apply: no maximum interval is configured, or the time of the last
    cleaning is unknown, or the interval has not elapsed yet. *)
Definition time_rule_idle (self : DefaultCleaningPolicy) (now : Z)
    (last_cleaned_ts : option Z) : Prop :=
  max_time_between_cleans self = None
  \/ last_cleaned_ts = None
  \/ exists max_interval ts,
       max_time_between_cleans self = Some max_interval
       /\ last_cleaned_ts = Some ts
       /\ now - ts < max_interval.

(** ** Further methods and callers *)

(** A value stored in the dict [CoffeeRecipe.as_dict] returns. *)
Inductive PyValue : Type :=
  | PyStr (s : string)
  | PyInt (z : Z)
  | PyNone.

(** [grind.name] *)
Definition CoffeeRecipeGrindLevel_name (g : CoffeeRecipeGrindLevel)
  : string :=
  match g with
  | FINE => "FINE"
  | MEDIUM => "MEDIUM"
  | COARSE => "COARSE"
  end.

Definition as_dict (self : CoffeeRecipe) : gmap string PyValue :=
  <[ "name" := PyStr (name self) ]>
  (<[ "water_ml" := PyInt (water_ml self) ]>
  (<[ "beans_g" := PyInt (beans_g self) ]>
  (<[ "grind" := match grind self with
                 | Some g => PyStr (CoffeeRecipeGrindLevel_name g)
                 | None => PyNone
                 end ]> ∅))).

(** How severe a cleaning action is. *)
Definition severity (a : CleaningAction) : Z :=
  match a with
  | NO_ACTION => 0
  | SCHEDULE => 1
  | IMMEDIATE => 2
  end.

(** A call a client makes on the machine; [Brew] and [Clean] carry what the
    clock shows when they run. *)
Inductive MachineCall : Type :=
  | SelectRecipe (recipe : CoffeeRecipe)
  | Brew (now : Z)
  | Clean (now : Z)
  | ScheduleCleaning
  | RefillWater (amount : Z)
  | RefillBeans (amount : Z).

Section MachineCallers.
Context {BP CP RP : Type}.
Context `{!BrewPolicy BP, !CleaningPolicy CP}.

Definition machine_call (c : MachineCall)
  : Py (SimpleCoffeeMachine BP CP RP) unit :=
  match c with
  | SelectRecipe recipe => select_recipe recipe
  | Brew now => brew now ;> ret tt
  | Clean now => clean now
  | ScheduleCleaning => schedule_cleaning
  | RefillWater amount => refill_water amount ;> ret tt
  | RefillBeans amount => refill_beans amount ;> ret tt
  end.

(** The machine after a client made the calls [cs] one after the other,
    catching whatever a call raised and going on (the loop of [run.py]). *)
Definition after_machine_calls (cs : list MachineCall)
    (m : SimpleCoffeeMachine BP CP RP) : SimpleCoffeeMachine BP CP RP :=
  fold_left (fun m c => snd (machine_call c m)) cs m.

(** One [brew] per clock reading, up to the first call that raises. *)
Fixpoint brew_each (nows : list Z)
  : Py (SimpleCoffeeMachine BP CP RP) (list BrewDecision) :=
  match nows with
  | [] => ret []
  | now :: rest =>
      let! decision := brew now in
      let! decisions := brew_each rest in
      ret (decision :: decisions)
  end.

End MachineCallers.

(** The values [state] takes: the initial one, the names of the refusals
    and NEEDS_CLEANING. *)
Definition machine_states : list string :=
  ["IDLE"; "OUT_OF_WATER"; "OUT_OF_BEANS"; "RECIPE_FORBIDDEN";
   "NEEDS_CLEANING"; "ERROR"].

(** What the machine keeps whatever is called on it: the invariants of its
    two containers, a dirty count that is not negative and a [state] among
    [machine_states]. *)
Definition machine_sound {BP CP RP : Type} (m : SimpleCoffeeMachine BP CP RP)
  : Prop :=
  WaterTank_invariant (water_tank m)
  /\ BeanContainer_invariant (bean_container m)
  /\ 0 <= dirty_count m
  /\ In (state m) machine_states.

(** * Properties *)

Ltac py_unfold := unfold bind, get, modify, raise, ret, on_attr in *.

(** ** Containers *)

Section WaterTankFacts.
Import WaterTank.

Local Ltac levels :=
  unfold current_level, maximum_level in *; simpl in *; lia.

Lemma WaterTank_init_ok maximum initial :
  0 < maximum -> 0 <= initial <= maximum ->
  __init__ maximum initial
  = Returned {| _maximum_level := maximum; _current_level := initial |}.
Proof.
  intros Hmax Hinit. unfold __init__.
  destruct (maximum <=? 0) eqn:E1; [lia|].
  destruct (initial <? 0) eqn:E2; [lia|].
  destruct (initial >? maximum) eqn:E3; [lia|]. reflexivity.
Qed.

Lemma consume_water_invalid use_level self :
  use_level <= 0 ->
  consume_water use_level self = (Raised InvalidWaterOperationError, self).
Proof.
  intros H. unfold consume_water.
  destruct (use_level <=? 0) eqn:E; [reflexivity | lia].
Qed.

Lemma consume_water_short use_level self :
  0 < use_level -> current_level self - use_level < 0 ->
  consume_water use_level self = (Raised NotEnoughWaterError, self).
Proof.
  intros H1 H2. unfold consume_water, current_level in *.
  destruct (use_level <=? 0) eqn:E; [lia|]. py_unfold.
  destruct (_current_level self - use_level >=? 0) eqn:E'; [lia|].
  reflexivity.
Qed.

Lemma consume_water_ok use_level self :
  0 < use_level -> 0 <= current_level self - use_level ->
  consume_water use_level self
  = (Returned tt, set_current (current_level self - use_level) self).
Proof.
  intros H1 H2. unfold consume_water, current_level in *.
  destruct (use_level <=? 0) eqn:E; [lia|]. py_unfold.
  destruct (_current_level self - use_level >=? 0) eqn:E'; [|lia].
  reflexivity.
Qed.

Lemma WaterTank_refill_invalid refill_level self :
  refill_level <= 0 ->
  refill refill_level self = (Raised InvalidWaterOperationError, self).
Proof.
  intros H. unfold refill.
  destruct (refill_level <=? 0) eqn:E; [reflexivity | lia].
Qed.

Lemma WaterTank_refill_full refill_level self :
  0 < refill_level ->
  maximum_level self <= current_level self + refill_level ->
  refill refill_level self
  = (Returned NOW_FULL, set_current (maximum_level self) self).
Proof.
  intros H1 H2. unfold refill, current_level, maximum_level in *.
  destruct (refill_level <=? 0) eqn:E; [lia|]. py_unfold.
  destruct (_current_level self + refill_level >=? _maximum_level self)
    eqn:E'; [|lia].
  reflexivity.
Qed.

Lemma WaterTank_refill_partial refill_level self :
  0 < refill_level ->
  current_level self + refill_level < maximum_level self ->
  refill refill_level self
  = (Returned STILL_NOT_FULL,
     set_current (current_level self + refill_level) self).
Proof.
  intros H1 H2. unfold refill, current_level, maximum_level in *.
  destruct (refill_level <=? 0) eqn:E; [lia|]. py_unfold.
  destruct (_current_level self + refill_level >=? _maximum_level self)
    eqn:E'; [lia|].
  reflexivity.
Qed.

(** Every call, failed or not, keeps the capacity and the invariant. *)
Lemma WaterTank_call_preserves c self :
  WaterTank_invariant self ->
  WaterTank_invariant (snd (WaterTank_call c self))
  /\ maximum_level (snd (WaterTank_call c self)) = maximum_level self.
Proof.
  unfold WaterTank_invariant. intros Hinv.
  destruct c as [amount|amount]; simpl.
  - destruct (Z_le_gt_dec amount 0) as [Hle|Hgt].
    + rewrite consume_water_invalid by assumption. levels.
    + destruct (Z_lt_ge_dec (current_level self - amount) 0) as [Hs|Hs].
      * rewrite consume_water_short by lia. levels.
      * rewrite consume_water_ok by lia. levels.
  - unfold bind.
    destruct (Z_le_gt_dec amount 0) as [Hle|Hgt].
    + rewrite WaterTank_refill_invalid by assumption. levels.
    + destruct (Z_lt_ge_dec (current_level self + amount)
                            (maximum_level self)) as [Hs|Hs].
      * rewrite WaterTank_refill_partial by lia. levels.
      * rewrite WaterTank_refill_full by lia. levels.
Qed.

End WaterTankFacts.

Section BeanContainerFacts.
Import BeanContainer.

Local Ltac cases :=
  py_unfold; repeat case_match; simplify_eq; try lia; try reflexivity.

Lemma BeanContainer_init_ok maximum initial :
  0 < maximum -> 0 <= initial <= maximum ->
  __init__ maximum initial
  = Returned {| _maximum_grams := maximum; _current_grams := initial |}.
Proof. intros. unfold __init__. cases. Qed.

Lemma consume_beans_invalid amount_grams self :
  amount_grams <= 0 ->
  consume_beans amount_grams self = (Raised InvalidBeanOperationError, self).
Proof. intros. unfold consume_beans. cases. Qed.

Lemma consume_beans_short amount_grams self :
  0 < amount_grams -> current_level self - amount_grams < 0 ->
  consume_beans amount_grams self = (Raised NotEnoughBeansError, self).
Proof. intros. unfold consume_beans, current_level in *. cases. Qed.

Lemma consume_beans_ok amount_grams self :
  0 < amount_grams -> 0 <= current_level self - amount_grams ->
  consume_beans amount_grams self
  = (Returned tt, set_current (current_level self - amount_grams) self).
Proof. intros. unfold consume_beans, current_level in *. cases. Qed.

Lemma BeanContainer_refill_invalid refill_grams self :
  refill_grams <= 0 ->
  refill refill_grams self = (Raised InvalidBeanOperationError, self).
Proof. intros. unfold refill. cases. Qed.

Lemma BeanContainer_refill_full refill_grams self :
  0 < refill_grams ->
  maximum_level self <= current_level self + refill_grams ->
  refill refill_grams self
  = (Returned NOW_FULL, set_current (maximum_level self) self).
Proof.
  intros. unfold refill, current_level, maximum_level in *. cases.
Qed.

Lemma BeanContainer_refill_partial refill_grams self :
  0 < refill_grams ->
  current_level self + refill_grams < maximum_level self ->
  refill refill_grams self
  = (Returned STILL_NOT_FULL,
     set_current (current_level self + refill_grams) self).
Proof.
  intros. unfold refill, current_level, maximum_level in *. cases.
Qed.

Lemma BeanContainer_call_preserves c self :
  BeanContainer_invariant self ->
  BeanContainer_invariant (snd (BeanContainer_call c self))
  /\ maximum_level (snd (BeanContainer_call c self)) = maximum_level self.
Proof.
  unfold BeanContainer_invariant, BeanContainer_call, consume_beans, refill,
    current_level, maximum_level.
  intros Hinv. destruct c; cases; simpl; lia.
Qed.

End BeanContainerFacts.

(** The induction over a client's calls, once for both containers. *)
Section Calls.
Variables (T : Type) (level capacity : T -> Z).
Variable call : ContainerCall -> Py T unit.

Hypothesis call_preserves : forall c s,
  0 <= level s <= capacity s ->
  0 <= level (snd (call c s)) <= capacity (snd (call c s))
  /\ capacity (snd (call c s)) = capacity s.

Lemma after_calls_preserve cs : forall s,
  0 <= level s <= capacity s ->
  0 <= level (after_calls call cs s) <= capacity (after_calls call cs s)
  /\ capacity (after_calls call cs s) = capacity s.
Proof.
  induction cs as [|c cs IH]; intros s Hinv.
  - split; [exact Hinv | reflexivity].
  - destruct (call_preserves c s Hinv) as [Hinv' Hcap].
    destruct (IH _ Hinv') as [Hinv'' Hcap'].
    split; [exact Hinv'' |].
    change (after_calls call (c :: cs) s)
      with (after_calls call cs (snd (call c s))).
    congruence.
Qed.

End Calls.

(** C2. A [WaterTank] and a [BeanContainer] constructed with
    [maximum > 0] and [0 <= initial <= maximum] are constructed
    successfully, and after any finite sequence of consume and refill calls,
    failed calls included, [0 <= current_level <= maximum_level] holds and
    [maximum_level] is the one given at construction. *)
Theorem containers_keep_invariant (maximum initial : Z)
    (cs : list ContainerCall) :
  0 < maximum -> 0 <= initial <= maximum ->
  (exists tank,
      WaterTank.__init__ maximum initial = Returned tank
      /\ 0 <= WaterTank.current_level (after_calls WaterTank_call cs tank)
           <= WaterTank.maximum_level (after_calls WaterTank_call cs tank)
      /\ WaterTank.maximum_level (after_calls WaterTank_call cs tank)
         = maximum)
  /\ (exists box,
      BeanContainer.__init__ maximum initial = Returned box
      /\ 0 <= BeanContainer.current_level
                (after_calls BeanContainer_call cs box)
           <= BeanContainer.maximum_level
                (after_calls BeanContainer_call cs box)
      /\ BeanContainer.maximum_level (after_calls BeanContainer_call cs box)
         = maximum).
Proof.
  intros Hmax Hinit. split.
  - eexists. split; [apply WaterTank_init_ok; assumption|].
    apply (after_calls_preserve _ WaterTank.current_level
             WaterTank.maximum_level WaterTank_call
             WaterTank_call_preserves cs).
    exact Hinit.
  - eexists. split; [apply BeanContainer_init_ok; assumption|].
    apply (after_calls_preserve _ BeanContainer.current_level
             BeanContainer.maximum_level BeanContainer_call
             BeanContainer_call_preserves cs).
    exact Hinit.
Qed.

Lemma containers_keep_invariant_witness :
  let cs := [Consume 30; Refill 1000; Consume 9999; Refill (-5); Consume 0;
             Consume 500; Refill 7] in
  (0 < 500 /\ 0 <= 150 <= 500)
  /\ (exists tank,
         WaterTank.__init__ 500 150 = Returned tank
         /\ 0 <= WaterTank.current_level (after_calls WaterTank_call cs tank)
              <= WaterTank.maximum_level (after_calls WaterTank_call cs tank)
         /\ WaterTank.maximum_level (after_calls WaterTank_call cs tank)
            = 500).
Proof.
  intros cs. split; [lia|].
  apply (containers_keep_invariant 500 150 cs); lia.
Defined.

(** C3. For every container and every integer amount, consume raises the
    invalid-operation error exactly when [amount <= 0], raises the
    not-enough error exactly when [amount > 0] and
    [current - amount < 0], leaves the container as it was whenever it
    raises, and otherwise returns with the level lowered by exactly
    [amount]. *)
Theorem consume_all_or_nothing (amount : Z) (tank : WaterTank.t)
    (box : BeanContainer.t) :
  ((fst (WaterTank.consume_water amount tank)
      = Raised InvalidWaterOperationError <-> amount <= 0)
   /\ (fst (WaterTank.consume_water amount tank) = Raised NotEnoughWaterError
       <-> 0 < amount /\ WaterTank.current_level tank - amount < 0)
   /\ (forall e, fst (WaterTank.consume_water amount tank) = Raised e ->
         snd (WaterTank.consume_water amount tank) = tank
         /\ (e = InvalidWaterOperationError \/ e = NotEnoughWaterError))
   /\ (fst (WaterTank.consume_water amount tank) = Returned tt ->
         snd (WaterTank.consume_water amount tank)
         = {| WaterTank._maximum_level := WaterTank.maximum_level tank;
              WaterTank._current_level :=
                WaterTank.current_level tank - amount |}))
  /\ ((fst (BeanContainer.consume_beans amount box)
         = Raised InvalidBeanOperationError <-> amount <= 0)
      /\ (fst (BeanContainer.consume_beans amount box)
            = Raised NotEnoughBeansError
          <-> 0 < amount /\ BeanContainer.current_level box - amount < 0)
      /\ (forall e, fst (BeanContainer.consume_beans amount box) = Raised e ->
            snd (BeanContainer.consume_beans amount box) = box
            /\ (e = InvalidBeanOperationError \/ e = NotEnoughBeansError))
      /\ (fst (BeanContainer.consume_beans amount box) = Returned tt ->
            snd (BeanContainer.consume_beans amount box)
            = {| BeanContainer._maximum_grams :=
                   BeanContainer.maximum_level box;
                 BeanContainer._current_grams :=
                   BeanContainer.current_level box - amount |})).
Proof.
  split.
  - destruct (Z_le_gt_dec amount 0) as [Hle|Hgt].
    + rewrite consume_water_invalid by assumption. simpl.
      repeat split; intros; try discriminate; try lia; try tauto.
      left. congruence.
    + destruct (Z_lt_ge_dec (WaterTank.current_level tank - amount) 0)
        as [Hs|Hs].
      * rewrite consume_water_short by lia. simpl.
        repeat split; intros; try discriminate; try lia.
        right. congruence.
      * rewrite consume_water_ok by lia. simpl.
        repeat split; intros; try discriminate; try lia; reflexivity.
  - destruct (Z_le_gt_dec amount 0) as [Hle|Hgt].
    + rewrite consume_beans_invalid by assumption. simpl.
      repeat split; intros; try discriminate; try lia; try tauto.
      left. congruence.
    + destruct (Z_lt_ge_dec (BeanContainer.current_level box - amount) 0)
        as [Hs|Hs].
      * rewrite consume_beans_short by lia. simpl.
        repeat split; intros; try discriminate; try lia.
        right. congruence.
      * rewrite consume_beans_ok by lia. simpl.
        repeat split; intros; try discriminate; try lia; reflexivity.
Qed.

(** C4. For every container and every [amount > 0], refill never raises:
    when [current + amount >= maximum] it sets the level to the maximum and
    returns NOW_FULL, otherwise it sets the level to [current + amount] and
    returns STILL_NOT_FULL.  So a full container refilled with a positive
    amount answers NOW_FULL and stays at its maximum, and a container of
    450 out of 500 refilled with 200 ends at 500 with NOW_FULL. *)
Theorem refill_caps_at_maximum (amount : Z) (tank : WaterTank.t)
    (box : BeanContainer.t) :
  0 < amount ->
  ((WaterTank.maximum_level tank <= WaterTank.current_level tank + amount ->
      WaterTank.refill amount tank
      = (Returned WaterTank.NOW_FULL,
         {| WaterTank._maximum_level := WaterTank.maximum_level tank;
            WaterTank._current_level := WaterTank.maximum_level tank |}))
   /\ (WaterTank.current_level tank + amount < WaterTank.maximum_level tank ->
      WaterTank.refill amount tank
      = (Returned WaterTank.STILL_NOT_FULL,
         {| WaterTank._maximum_level := WaterTank.maximum_level tank;
            WaterTank._current_level :=
              WaterTank.current_level tank + amount |}))
   /\ (WaterTank.is_full tank = true ->
      WaterTank.refill amount tank = (Returned WaterTank.NOW_FULL, tank)))
  /\ ((BeanContainer.maximum_level box
         <= BeanContainer.current_level box + amount ->
       BeanContainer.refill amount box
       = (Returned BeanContainer.NOW_FULL,
          {| BeanContainer._maximum_grams := BeanContainer.maximum_level box;
             BeanContainer._current_grams :=
               BeanContainer.maximum_level box |}))
      /\ (BeanContainer.current_level box + amount
            < BeanContainer.maximum_level box ->
       BeanContainer.refill amount box
       = (Returned BeanContainer.STILL_NOT_FULL,
          {| BeanContainer._maximum_grams := BeanContainer.maximum_level box;
             BeanContainer._current_grams :=
               BeanContainer.current_level box + amount |}))
      /\ (BeanContainer.is_full box = true ->
       BeanContainer.refill amount box
       = (Returned BeanContainer.NOW_FULL, box)))
  /\ (exists tank0,
        WaterTank.__init__ 500 450 = Returned tank0
        /\ WaterTank.refill 200 tank0
           = (Returned WaterTank.NOW_FULL,
              {| WaterTank._maximum_level := 500;
                 WaterTank._current_level := 500 |}))
  /\ (exists box0,
        BeanContainer.__init__ 500 450 = Returned box0
        /\ BeanContainer.refill 200 box0
           = (Returned BeanContainer.NOW_FULL,
              {| BeanContainer._maximum_grams := 500;
                 BeanContainer._current_grams := 500 |})).
Proof.
  intros Hpos. repeat apply conj.
  - intros H. apply WaterTank_refill_full; assumption.
  - intros H. apply WaterTank_refill_partial; assumption.
  - intros Hfull. unfold WaterTank.is_full in Hfull.
    rewrite WaterTank_refill_full
      by (unfold WaterTank.current_level, WaterTank.maximum_level; lia).
    destruct tank as [mx cur]. simpl in *.
    unfold WaterTank.set_current, WaterTank.maximum_level. simpl.
    replace cur with mx by lia. reflexivity.
  - intros H. apply BeanContainer_refill_full; assumption.
  - intros H. apply BeanContainer_refill_partial; assumption.
  - intros Hfull. unfold BeanContainer.is_full in Hfull.
    rewrite BeanContainer_refill_full
      by (unfold BeanContainer.current_level, BeanContainer.maximum_level;
          lia).
    destruct box as [mx cur]. simpl in *.
    unfold BeanContainer.set_current, BeanContainer.maximum_level. simpl.
    replace cur with mx by lia. reflexivity.
  - eexists. split; reflexivity.
  - eexists. split; reflexivity.
Qed.

Lemma refill_caps_at_maximum_witness :
  let tank := {| WaterTank._maximum_level := 500;
                 WaterTank._current_level := 500 |} in
  0 < 100
  /\ WaterTank.is_full tank = true
  /\ WaterTank.refill 100 tank = (Returned WaterTank.NOW_FULL, tank).
Proof.
  intros tank. split; [lia|]. split; [reflexivity|].
  apply (refill_caps_at_maximum 100 tank
           {| BeanContainer._maximum_grams := 500;
              BeanContainer._current_grams := 500 |});
    [lia | reflexivity].
Defined.

(** ** Policies *)

Lemma or_empty_dict_lookup (d : gmap string Z) (key : string) :
  or_empty_dict (Some d) !! key = d !! key.
Proof.
  unfold or_empty_dict. destruct (decide (d = ∅)) as [->|_]; reflexivity.
Qed.

Lemma dirty_count_of_missing (maintenance_state : MaintenanceState) :
  (forall d, maintenance_state = Some d -> d !! "dirty_count" = None) ->
  dict_get (or_empty_dict maintenance_state) "dirty_count" 0 = 0.
Proof.
  intros Hmiss. unfold dict_get. destruct maintenance_state as [d|].
  - rewrite or_empty_dict_lookup, (Hmiss d eq_refl). reflexivity.
  - simpl. rewrite lookup_empty. reflexivity.
Qed.

Lemma dirty_count_of_singleton (n : Z) :
  dict_get (or_empty_dict (Some {[ "dirty_count" := n ]})) "dirty_count" 0
  = n.
Proof.
  unfold dict_get. rewrite or_empty_dict_lookup, lookup_singleton_eq.
  reflexivity.
Qed.

(** What an OK of the default policy says about the levels. *)
Lemma DefaultBrewPolicy_OK_sufficient (self : DefaultBrewPolicy)
    (recipe : CoffeeRecipe) (water beans : Z)
    (maintenance_state : MaintenanceState) :
  can_brew self recipe water beans maintenance_state = OK ->
  (requires_water recipe = true -> water_ml recipe <= water)
  /\ (requires_beans recipe = true -> beans_g recipe <= beans).
Proof.
  unfold can_brew, DefaultBrewPolicy_BrewPolicy, DefaultBrewPolicy_can_brew.
  destruct (requires_water recipe) eqn:Hw, (requires_beans recipe) eqn:Hb;
    simpl; repeat case_match; intros; try discriminate;
    split; intros; try discriminate; lia.
Qed.

(** C5. [DefaultBrewPolicy.can_brew] checks water before beans: for a
    recipe that requires both, whenever the water available is below
    [recipe.water_ml] the decision is OUT_OF_WATER, whatever the beans
    available.  For espresso (30 ml, 8 g), [clean_threshold = 5], 20 ml of
    water, 100 g of beans and a dirty count of 0 the decision is
    OUT_OF_WATER. *)
Theorem water_checked_before_beans :
  (forall (self : DefaultBrewPolicy) (recipe : CoffeeRecipe)
          (water beans : Z) (maintenance_state : MaintenanceState),
      requires_water recipe = true ->
      requires_beans recipe = true ->
      water < water_ml recipe ->
      can_brew self recipe water beans maintenance_state = OUT_OF_WATER)
  /\ (exists policy espresso,
        DefaultBrewPolicy__init__ 5 false = Returned policy
        /\ CoffeeRecipe__init__ "espresso" 30 8 None = Returned espresso
        /\ can_brew policy espresso 20 100 (Some {[ "dirty_count" := 0 ]})
           = OUT_OF_WATER).
Proof.
  split.
  - intros self recipe water beans ms Hw Hb Hlt.
    unfold can_brew, DefaultBrewPolicy_BrewPolicy, DefaultBrewPolicy_can_brew.
    rewrite Hw, Hb. simpl.
    destruct (water <? water_ml recipe) eqn:E; [reflexivity | lia].
  - do 2 eexists. repeat split.
Qed.

Lemma water_checked_before_beans_witness :
  let recipe := {| name := "lungo"; water_ml := 60; beans_g := 8;
                   grind := Some FINE |} in
  let policy := {| clean_threshold := 100;
                   allow_recipe_with_no_requirements := false |} in
  (requires_water recipe = true /\ requires_beans recipe = true /\ 40 < 60)
  /\ can_brew policy recipe 40 3 None = OUT_OF_WATER.
Proof.
  intros recipe policy. split; [repeat split; lia|].
  apply (proj1 water_checked_before_beans policy recipe 40 3 None);
    [reflexivity | reflexivity | simpl; lia].
Defined.

(** C6, as the code has it.  With [0 <= schedule_threshold <=
    immediate_threshold] and the time-based rule not applying, evaluate at
    [dirty_count = schedule_threshold] returns SCHEDULE when the two
    thresholds differ, and evaluate at [dirty_count = immediate_threshold]
    returns IMMEDIATE. *)
Theorem cleaning_threshold_boundaries (self : DefaultCleaningPolicy)
    (now : Z) (last_cleaned_ts : option Z) :
  0 <= schedule_threshold self <= immediate_threshold self ->
  time_rule_idle self now last_cleaned_ts ->
  (schedule_threshold self < immediate_threshold self ->
   evaluate self now (schedule_threshold self) last_cleaned_ts = SCHEDULE)
  /\ evaluate self now (immediate_threshold self) last_cleaned_ts
     = IMMEDIATE.
Proof.
  intros Hcfg Hidle.
  unfold evaluate, DefaultCleaningPolicy_CleaningPolicy,
    DefaultCleaningPolicy_evaluate, or_zero.
  assert (Hoff :
    match max_time_between_cleans self, last_cleaned_ts with
    | Some max_interval, Some ts => now - ts >=? max_interval
    | _, _ => false
    end = false).
  { destruct Hidle as [-> | [-> | (mx & ts & -> & -> & Hlt)]].
    - reflexivity.
    - destruct (max_time_between_cleans self); reflexivity.
    - lia. }
  rewrite Hoff. split; [intros Hlt|]; repeat case_match; try reflexivity; lia.
Qed.

Lemma cleaning_threshold_boundaries_witness :
  let policy := {| schedule_threshold := 3; immediate_threshold := 6;
                   max_time_between_cleans := Some 604800000000 |} in
  (0 <= 3 <= 6 /\ time_rule_idle policy 1000 (Some 400) /\ 3 < 6)
  /\ evaluate policy 1000 3 (Some 400) = SCHEDULE
  /\ evaluate policy 1000 6 (Some 400) = IMMEDIATE.
Proof.
  intros policy.
  assert (Hidle : time_rule_idle policy 1000 (Some 400)).
  { right. right. exists 604800000000, 400. repeat split. }
  split; [split; [lia | split; [exact Hidle | lia]] |].
  destruct (cleaning_threshold_boundaries policy 1000 (Some 400))
    as [Hs Hi]; [simpl; lia | exact Hidle |].
  split; [apply Hs; simpl; lia | exact Hi].
Defined.

(** C6 as stated fails: 5 and 5 are valid thresholds, no time-based rule is
    configured, and at a dirty count of 5 the policy answers IMMEDIATE, not
    SCHEDULE. *)
Lemma equal_thresholds_skip_schedule :
  exists policy,
    DefaultCleaningPolicy__init__ 5 5 None = Returned policy
    /\ 0 <= schedule_threshold policy <= immediate_threshold policy
    /\ time_rule_idle policy 0 None
    /\ evaluate policy 0 (schedule_threshold policy) None = IMMEDIATE
    /\ evaluate policy 0 (schedule_threshold policy) None <> SCHEDULE.
Proof.
  eexists. split; [reflexivity|]. simpl.
  repeat split; try lia; try discriminate. left. reflexivity.
Qed.

(** C7. When [max_time_between_cleans] is configured, the time of the last
    cleaning is known and [now - last_cleaned_ts >= max_time_between_cleans],
    evaluate returns IMMEDIATE for every dirty count, 0 included. *)
Theorem elapsed_interval_is_immediate (self : DefaultCleaningPolicy)
    (now ts max_interval dirty_count : Z) :
  max_time_between_cleans self = Some max_interval ->
  now - ts >= max_interval ->
  evaluate self now dirty_count (Some ts) = IMMEDIATE.
Proof.
  intros Hcfg Helapsed.
  unfold evaluate, DefaultCleaningPolicy_CleaningPolicy,
    DefaultCleaningPolicy_evaluate.
  rewrite Hcfg.
  destruct (now - ts >=? max_interval) eqn:E; [reflexivity | lia].
Qed.

Lemma elapsed_interval_is_immediate_witness :
  let policy := {| schedule_threshold := 5; immediate_threshold := 10;
                   max_time_between_cleans := Some 604800000000 |} in
  (max_time_between_cleans policy = Some 604800000000
   /\ 691200000000 - 0 >= 604800000000)
  /\ evaluate policy 691200000000 0 (Some 0) = IMMEDIATE.
Proof.
  intros policy. split; [split; [reflexivity | lia] |].
  apply (elapsed_interval_is_immediate policy 691200000000 0 604800000000 0);
    [reflexivity | lia].
Defined.

(** C8. [StrictRefillPolicy.on_refill(current, amount, maximum)] with
    [amount > 0] returns [(current, OVERFLOW_ERROR)] when
    [current + amount > maximum], [(maximum, NOW_FULL)] when
    [current + amount = maximum] and [(current + amount, STILL_NOT_FULL)]
    otherwise; with [amount <= 0] it raises ValueError.  On 180, 50 and 200
    it returns [(180, OVERFLOW_ERROR)]. *)
Theorem strict_refill_reports_overflow :
  (forall (self : StrictRefillPolicy) (current amount maximum : Z),
      (0 < amount ->
       (maximum < current + amount ->
        on_refill self current amount maximum
        = Returned (current, OVERFLOW_ERROR))
       /\ (current + amount = maximum ->
        on_refill self current amount maximum = Returned (maximum, NOW_FULL))
       /\ (current + amount < maximum ->
        on_refill self current amount maximum
        = Returned (current + amount, STILL_NOT_FULL)))
      /\ (amount <= 0 ->
          on_refill self current amount maximum = Raised ValueError))
  /\ on_refill StrictRefillPolicy__init__ 180 50 200
     = Returned (180, OVERFLOW_ERROR).
Proof.
  split; [|reflexivity].
  intros self current amount maximum.
  unfold on_refill, StrictRefillPolicy_RefillPolicy,
    StrictRefillPolicy_on_refill.
  destruct (Z.leb_spec amount 0) as [Hle|Hgt].
  - split; [lia | reflexivity].
  - split; [intros _ | lia].
    destruct (Z.gtb_spec (current + amount) maximum) as [Hov|Hfit].
    + repeat split; intros; first [reflexivity | lia].
    + destruct (Z.eqb_spec (current + amount) maximum) as [Heq|Hne].
      * repeat split; intros; first [reflexivity | lia].
      * repeat split; intros; first [reflexivity | lia].
Qed.

Lemma strict_refill_reports_overflow_witness :
  (0 < 50 /\ 150 + 50 = 200)
  /\ on_refill StrictRefillPolicy__init__ 150 50 200
     = Returned (200, NOW_FULL).
Proof.
  split; [lia|].
  apply (proj1 strict_refill_reports_overflow StrictRefillPolicy__init__
           150 50 200); lia.
Defined.

(** C10. For every recipe and levels, [DefaultBrewPolicy.can_brew] called
    with [maintenance_state] omitted or [None], or with a mapping that has
    no ["dirty_count"] key, returns the decision it returns for
    [{"dirty_count": 0}]. *)
Theorem missing_maintenance_state_counts_as_clean :
  forall (self : DefaultBrewPolicy) (recipe : CoffeeRecipe) (water beans : Z),
    can_brew self recipe water beans None
    = can_brew self recipe water beans (Some {[ "dirty_count" := 0 ]})
    /\ forall d : gmap string Z,
         d !! "dirty_count" = None ->
         can_brew self recipe water beans (Some d)
         = can_brew self recipe water beans (Some {[ "dirty_count" := 0 ]}).
Proof.
  intros self recipe water beans.
  unfold can_brew, DefaultBrewPolicy_BrewPolicy, DefaultBrewPolicy_can_brew.
  rewrite dirty_count_of_singleton. split.
  - rewrite dirty_count_of_missing by (intros; discriminate). reflexivity.
  - intros d Hd. rewrite dirty_count_of_missing; [reflexivity|].
    intros d' [= <-]. exact Hd.
Qed.

Lemma missing_maintenance_state_counts_as_clean_witness :
  let policy := {| clean_threshold := 0;
                   allow_recipe_with_no_requirements := false |} in
  let recipe := {| name := "espresso"; water_ml := 30; beans_g := 8;
                   grind := None |} in
  let d : gmap string Z := {[ "brews_today" := 12 ]} in
  d !! "dirty_count" = None
  /\ can_brew policy recipe 100 100 (Some d)
     = can_brew policy recipe 100 100 (Some {[ "dirty_count" := 0 ]}).
Proof.
  intros policy recipe d.
  assert (Hd : d !! "dirty_count" = None) by (vm_compute; reflexivity).
  split; [exact Hd|].
  apply (proj2 (missing_maintenance_state_counts_as_clean
                  policy recipe 100 100) d Hd).
Defined.

(** ** The machine *)

Section MachineFacts.
Context {BP CP RP : Type}.
Context `{!BrewPolicy BP, !CleaningPolicy CP, !RefillPolicy RP}.

Implicit Types (m : SimpleCoffeeMachine BP CP RP) (recipe : CoffeeRecipe).

Lemma brew_without_recipe m now :
  active_recipe m = None -> brew now m = (Raised RuntimeError, m).
Proof. intros Hnone. unfold brew. py_unfold. rewrite Hnone. reflexivity. Qed.

Lemma brew_refused m recipe now :
  active_recipe m = Some recipe ->
  let decision :=
    can_brew (brew_policy m) recipe
      (WaterTank.current_level (water_tank m))
      (BeanContainer.current_level (bean_container m))
      (Some {[ "dirty_count" := dirty_count m ]}) in
  decision <> OK ->
  brew now m
  = (Returned decision, set_state (BrewDecision_name decision) m).
Proof.
  intros Hrecipe decision Hno. unfold brew. py_unfold. rewrite Hrecipe.
  fold decision. destruct (decide (decision <> OK)) as [_|Hok].
  - reflexivity.
  - contradiction.
Qed.

Lemma brew_accepted m recipe now :
  active_recipe m = Some recipe ->
  let water := WaterTank.current_level (water_tank m) in
  let beans := BeanContainer.current_level (bean_container m) in
  let action :=
    evaluate (cleaning_policy m) now (dirty_count m + 1)
      (last_cleaned_ts m) in
  can_brew (brew_policy m) recipe water beans
    (Some {[ "dirty_count" := dirty_count m ]}) = OK ->
  (requires_water recipe = true -> water_ml recipe <= water) ->
  (requires_beans recipe = true -> beans_g recipe <= beans) ->
  brew now m
  = (Returned OK,
     {| water_tank :=
          if requires_water recipe
          then {| WaterTank._maximum_level :=
                    WaterTank.maximum_level (water_tank m);
                  WaterTank._current_level := water - water_ml recipe |}
          else water_tank m;
        bean_container :=
          if requires_beans recipe
          then {| BeanContainer._maximum_grams :=
                    BeanContainer.maximum_level (bean_container m);
                  BeanContainer._current_grams := beans - beans_g recipe |}
          else bean_container m;
        brew_policy := brew_policy m;
        cleaning_policy := cleaning_policy m;
        refill_policy := refill_policy m;
        state := match action with
                 | IMMEDIATE => "NEEDS_CLEANING"
                 | SCHEDULE | NO_ACTION => "IDLE"
                 end;
        active_recipe := active_recipe m;
        dirty_count := dirty_count m + 1;
        last_cleaned_ts := last_cleaned_ts m;
        cleaning_scheduled := match action with
                              | SCHEDULE => true
                              | IMMEDIATE | NO_ACTION => cleaning_scheduled m
                              end |}).
Proof.
  intros Hrecipe water beans action Hok Hw Hb.
  unfold brew. py_unfold. rewrite Hrecipe. fold water beans. rewrite Hok.
  destruct (decide (OK <> OK)) as [Hne|_]; [contradiction|].
  assert (Hw' : requires_water recipe = true ->
                0 < water_ml recipe
                /\ 0 <= WaterTank.current_level (water_tank m)
                        - water_ml recipe).
  { intros E. specialize (Hw E). unfold requires_water in E.
    subst water. lia. }
  assert (Hb' : requires_beans recipe = true ->
                0 < beans_g recipe
                /\ 0 <= BeanContainer.current_level (bean_container m)
                        - beans_g recipe).
  { intros E. specialize (Hb E). unfold requires_beans in E.
    subst beans. lia. }
  subst action water beans.
  destruct (requires_water recipe) eqn:Ew;
    [destruct (Hw' eq_refl);
     rewrite consume_water_ok by assumption |];
    cbn [bean_container set_water_tank];
    (destruct (requires_beans recipe) eqn:Eb;
     [destruct (Hb' eq_refl);
      rewrite consume_beans_ok by assumption |]);
    cbn; destruct (evaluate _ _ _ _); rewrite <- Hrecipe; reflexivity.
Qed.

End MachineFacts.

(** C1, as the code has it.  For every machine with an active recipe: when
    the brew policy's decision is not OK, [brew] stores the decision's name
    in [state], returns the decision and changes nothing else; when the
    decision is OK and the tank and the container hold what the recipe
    requires, [brew] takes [recipe.water_ml] from the tank (only when the
    recipe requires water) and [recipe.beans_g] from the container (only
    when it requires beans), adds 1 to [dirty_count], evaluates the cleaning
    policy on the new count, sets [state] to NEEDS_CLEANING on IMMEDIATE,
    sets [cleaning_scheduled] and [state = IDLE] on SCHEDULE, sets
    [state = IDLE] on NO_ACTION, and returns OK.  An OK of
    [DefaultBrewPolicy] comes with levels that suffice.  A machine with
    150/500 of water, 50/500 of beans, the default policies and the espresso
    selected brews with OK and is left with 120 of water, 42 of beans, a
    dirty count of 1 and the state IDLE. *)
Theorem brew_behaviour :
  (forall (BP CP RP : Type) (BPI : BrewPolicy BP) (CPI : CleaningPolicy CP)
          (m : SimpleCoffeeMachine BP CP RP) (recipe : CoffeeRecipe)
          (now : Z),
      active_recipe m = Some recipe ->
      let water := WaterTank.current_level (water_tank m) in
      let beans := BeanContainer.current_level (bean_container m) in
      let decision :=
        can_brew (brew_policy m) recipe water beans
          (Some {[ "dirty_count" := dirty_count m ]}) in
      let action :=
        evaluate (cleaning_policy m) now (dirty_count m + 1)
          (last_cleaned_ts m) in
      (decision <> OK ->
       brew now m
       = (Returned decision,
          {| water_tank := water_tank m;
             bean_container := bean_container m;
             brew_policy := brew_policy m;
             cleaning_policy := cleaning_policy m;
             refill_policy := refill_policy m;
             state := BrewDecision_name decision;
             active_recipe := active_recipe m;
             dirty_count := dirty_count m;
             last_cleaned_ts := last_cleaned_ts m;
             cleaning_scheduled := cleaning_scheduled m |}))
      /\ (decision = OK ->
          (requires_water recipe = true -> water_ml recipe <= water) ->
          (requires_beans recipe = true -> beans_g recipe <= beans) ->
          brew now m
          = (Returned OK,
             {| water_tank :=
                  if requires_water recipe
                  then {| WaterTank._maximum_level :=
                            WaterTank.maximum_level (water_tank m);
                          WaterTank._current_level :=
                            water - water_ml recipe |}
                  else water_tank m;
                bean_container :=
                  if requires_beans recipe
                  then {| BeanContainer._maximum_grams :=
                            BeanContainer.maximum_level (bean_container m);
                          BeanContainer._current_grams :=
                            beans - beans_g recipe |}
                  else bean_container m;
                brew_policy := brew_policy m;
                cleaning_policy := cleaning_policy m;
                refill_policy := refill_policy m;
                state := match action with
                         | IMMEDIATE => "NEEDS_CLEANING"
                         | SCHEDULE | NO_ACTION => "IDLE"
                         end;
                active_recipe := active_recipe m;
                dirty_count := dirty_count m + 1;
                last_cleaned_ts := last_cleaned_ts m;
                cleaning_scheduled :=
                  match action with
                  | SCHEDULE => true
                  | IMMEDIATE | NO_ACTION => cleaning_scheduled m
                  end |})))
  /\ (forall (CP RP : Type) (m : SimpleCoffeeMachine DefaultBrewPolicy CP RP)
             (recipe : CoffeeRecipe),
        let water := WaterTank.current_level (water_tank m) in
        let beans := BeanContainer.current_level (bean_container m) in
        can_brew (brew_policy m) recipe water beans
          (Some {[ "dirty_count" := dirty_count m ]}) = OK ->
        (requires_water recipe = true -> water_ml recipe <= water)
        /\ (requires_beans recipe = true -> beans_g recipe <= beans))
  /\ (forall machine, In machine [default_machine; cli_machine] ->
      exists m,
        machine = Returned m
        /\ WaterTank.current_level (water_tank m) = 150
        /\ BeanContainer.current_level (bean_container m) = 50
        /\ forall now, exists m',
             brew now m = (Returned OK, m')
             /\ WaterTank.current_level (water_tank m') = 120
             /\ WaterTank.maximum_level (water_tank m') = 500
             /\ BeanContainer.current_level (bean_container m') = 42
             /\ BeanContainer.maximum_level (bean_container m') = 500
             /\ dirty_count m' = 1
             /\ state m' = "IDLE").
Proof.
  split; [|split].
  - intros BP CP RP BPI CPI m recipe now Hrecipe water beans decision action.
    split.
    + intros Hno. exact (brew_refused m recipe now Hrecipe Hno).
    + intros Hok Hw Hb. exact (brew_accepted m recipe now Hrecipe Hok Hw Hb).
  - intros CP RP m recipe water beans Hok.
    exact (DefaultBrewPolicy_OK_sufficient _ _ _ _ _ Hok).
  - intros machine [<- | [<- | []]];
      (eexists; split; [reflexivity|]; split; [reflexivity|];
       split; [reflexivity|]; intros now; eexists;
       split; [vm_compute; reflexivity | repeat split]).
Qed.

Lemma brew_behaviour_witness :
  let espresso := {| name := "espresso"; water_ml := 30; beans_g := 8;
                     grind := None |} in
  let m : SimpleCoffeeMachine DefaultBrewPolicy DefaultCleaningPolicy
                              CapRefillPolicy :=
    {| water_tank := {| WaterTank._maximum_level := 500;
                        WaterTank._current_level := 45 |};
       bean_container := {| BeanContainer._maximum_grams := 500;
                            BeanContainer._current_grams := 20 |};
       brew_policy := {| clean_threshold := 5;
                         allow_recipe_with_no_requirements := false |};
       cleaning_policy := {| schedule_threshold := 3;
                             immediate_threshold := 6;
                             max_time_between_cleans := None |};
       refill_policy := CapRefillPolicy__init__;
       state := "IDLE";
       active_recipe := Some espresso;
       dirty_count := 2;
       last_cleaned_ts := None;
       cleaning_scheduled := false |} in
  active_recipe m = Some espresso
  /\ fst (brew 0 m) = Returned OK
  /\ WaterTank.current_level (water_tank (snd (brew 0 m))) = 15
  /\ dirty_count (snd (brew 0 m)) = 3
  /\ cleaning_scheduled (snd (brew 0 m)) = true.
Proof.
  intros espresso m. split; [reflexivity|].
  destruct (proj1 brew_behaviour _ _ _ _ _ m espresso 0 eq_refl)
    as [_ Hok].
  rewrite Hok; [repeat split | reflexivity | simpl; lia | simpl; lia].
Defined.

(** C1 as stated fails: a brew policy may answer OK without looking at the
    levels; with 20 ml in the tank and an espresso of 30 ml selected, [brew]
    raises [NotEnoughWaterError] instead of returning OK. *)
Lemma brew_raises_when_policy_trusts :
  active_recipe trusting_machine
  = Some {| name := "espresso"; water_ml := 30; beans_g := 8; grind := None |}
  /\ can_brew (brew_policy trusting_machine)
       {| name := "espresso"; water_ml := 30; beans_g := 8; grind := None |}
       (WaterTank.current_level (water_tank trusting_machine))
       (BeanContainer.current_level (bean_container trusting_machine))
       (Some {[ "dirty_count" := dirty_count trusting_machine ]}) = OK
  /\ brew 0 trusting_machine = (Raised NotEnoughWaterError, trusting_machine)
  /\ fst (brew 0 trusting_machine) <> Returned OK.
Proof. repeat split. discriminate. Qed.

(** C9. Whenever [DefaultBrewPolicy.can_brew] returns OK for a recipe
    evaluated against the machine's water and bean levels, the consume
    calls of [brew] do not raise: OK gives [water >= recipe.water_ml] when
    the recipe requires water and [beans >= recipe.beans_g] when it requires
    beans, the amounts consumed are positive exactly when the resource is
    required, so each consume call returns, and [brew] returns OK. *)
Theorem OK_makes_consumption_succeed :
  forall (CP RP : Type) (CPI : CleaningPolicy CP)
         (m : SimpleCoffeeMachine DefaultBrewPolicy CP RP)
         (recipe : CoffeeRecipe) (now : Z),
    active_recipe m = Some recipe ->
    let water := WaterTank.current_level (water_tank m) in
    let beans := BeanContainer.current_level (bean_container m) in
    can_brew (brew_policy m) recipe water beans
      (Some {[ "dirty_count" := dirty_count m ]}) = OK ->
    (requires_water recipe = true -> water_ml recipe <= water)
    /\ (requires_beans recipe = true -> beans_g recipe <= beans)
    /\ (requires_water recipe = true <-> 0 < water_ml recipe)
    /\ (requires_beans recipe = true <-> 0 < beans_g recipe)
    /\ (requires_water recipe = true ->
        WaterTank.consume_water (water_ml recipe) (water_tank m)
        = (Returned tt,
           {| WaterTank._maximum_level :=
                WaterTank.maximum_level (water_tank m);
              WaterTank._current_level := water - water_ml recipe |}))
    /\ (requires_beans recipe = true ->
        BeanContainer.consume_beans (beans_g recipe) (bean_container m)
        = (Returned tt,
           {| BeanContainer._maximum_grams :=
                BeanContainer.maximum_level (bean_container m);
              BeanContainer._current_grams := beans - beans_g recipe |}))
    /\ fst (brew now m) = Returned OK.
Proof.
  intros CP RP CPI m recipe now Hrecipe water beans Hok.
  destruct (DefaultBrewPolicy_OK_sufficient _ _ _ _ _ Hok) as [Hw Hb].
  assert (Hwpos : requires_water recipe = true <-> 0 < water_ml recipe)
    by (unfold requires_water; lia).
  assert (Hbpos : requires_beans recipe = true <-> 0 < beans_g recipe)
    by (unfold requires_beans; lia).
  do 4 (split; [assumption|]). split; [|split].
  - intros E. apply consume_water_ok; [tauto | specialize (Hw E)].
    subst water. lia.
  - intros E. apply consume_beans_ok; [tauto | specialize (Hb E)].
    subst beans. lia.
  - rewrite (brew_accepted m recipe now Hrecipe Hok Hw Hb). reflexivity.
Qed.

Lemma OK_makes_consumption_succeed_witness :
  let ristretto := {| name := "ristretto"; water_ml := 20; beans_g := 8;
                      grind := Some FINE |} in
  let m : SimpleCoffeeMachine DefaultBrewPolicy DefaultCleaningPolicy
                              CapRefillPolicy :=
    {| water_tank := {| WaterTank._maximum_level := 500;
                        WaterTank._current_level := 20 |};
       bean_container := {| BeanContainer._maximum_grams := 500;
                            BeanContainer._current_grams := 8 |};
       brew_policy := {| clean_threshold := 5;
                         allow_recipe_with_no_requirements := false |};
       cleaning_policy := {| schedule_threshold := 3;
                             immediate_threshold := 6;
                             max_time_between_cleans := None |};
       refill_policy := CapRefillPolicy__init__;
       state := "IDLE";
       active_recipe := Some ristretto;
       dirty_count := 4;
       last_cleaned_ts := None;
       cleaning_scheduled := true |} in
  (active_recipe m = Some ristretto
   /\ can_brew (brew_policy m) ristretto 20 8 (Some {[ "dirty_count" := 4 ]})
      = OK)
  /\ WaterTank.consume_water 20 (water_tank m)
     = (Returned tt, {| WaterTank._maximum_level := 500;
                        WaterTank._current_level := 0 |})
  /\ fst (brew 0 m) = Returned OK.
Proof.
  intros ristretto m.
  assert (Hok : can_brew (brew_policy m) ristretto 20 8
                  (Some {[ "dirty_count" := 4 ]}) = OK)
    by (vm_compute; reflexivity).
  split; [split; [reflexivity | exact Hok] |].
  destruct (OK_makes_consumption_succeed _ _ _ m ristretto 0 eq_refl Hok)
    as (_ & _ & _ & _ & Hwater & _ & Hbrew).
  split; [exact (Hwater eq_refl) | exact Hbrew].
Defined.

(** * Further properties *)

Ltac py_cases :=
  py_unfold; repeat case_match; simplify_eq; simpl in *;
  try discriminate; try lia; try reflexivity.

(** ** Containers: construction, queries and how the calls compose *)

(** X1. Both constructors return an object with the given capacity and
    level exactly when [maximum > 0] and [0 <= initial <= maximum], and
    raise the container's configuration error otherwise. *)
Theorem container_construction (maximum initial : Z) :
  (0 < maximum /\ 0 <= initial <= maximum ->
   WaterTank.__init__ maximum initial
   = Returned {| WaterTank._maximum_level := maximum;
                 WaterTank._current_level := initial |}
   /\ BeanContainer.__init__ maximum initial
      = Returned {| BeanContainer._maximum_grams := maximum;
                    BeanContainer._current_grams := initial |})
  /\ (~ (0 < maximum /\ 0 <= initial <= maximum) ->
      WaterTank.__init__ maximum initial = Raised InvalidWaterTankConfigError
      /\ BeanContainer.__init__ maximum initial
         = Raised InvalidBeanContainerConfigError).
Proof.
  unfold WaterTank.__init__, BeanContainer.__init__.
  split; intros H; split; py_cases.
Qed.

(** X2. Refilling with a positive amount leaves
    [max 0 (missing_capacity - amount)] missing; the call answers NOW_FULL,
    and the container is full afterwards, exactly when the amount covers
    what was missing. *)
Theorem refill_fills_missing_capacity (amount : Z) (tank : WaterTank.t)
    (box : BeanContainer.t) :
  0 < amount ->
  (WaterTank.missing_capacity (snd (WaterTank.refill amount tank))
   = Z.max 0 (WaterTank.missing_capacity tank - amount)
   /\ (fst (WaterTank.refill amount tank) = Returned WaterTank.NOW_FULL
       <-> WaterTank.missing_capacity tank <= amount)
   /\ (WaterTank.is_full (snd (WaterTank.refill amount tank)) = true
       <-> WaterTank.missing_capacity tank <= amount))
  /\ (BeanContainer.missing_capacity (snd (BeanContainer.refill amount box))
      = Z.max 0 (BeanContainer.missing_capacity box - amount)
      /\ (fst (BeanContainer.refill amount box)
          = Returned BeanContainer.NOW_FULL
          <-> BeanContainer.missing_capacity box <= amount)
      /\ (BeanContainer.is_full (snd (BeanContainer.refill amount box)) = true
          <-> BeanContainer.missing_capacity box <= amount)).
Proof.
  intros Hpos. split.
  - unfold WaterTank.missing_capacity in *.
    destruct (Z_lt_ge_dec (WaterTank.current_level tank + amount)
                (WaterTank.maximum_level tank)) as [Hs|Hs].
    + rewrite WaterTank_refill_partial by assumption.
      unfold WaterTank.is_full, WaterTank.current_level,
        WaterTank.maximum_level in *. simpl.
      repeat split; intros; try discriminate; lia.
    + rewrite WaterTank_refill_full by lia.
      unfold WaterTank.is_full, WaterTank.current_level,
        WaterTank.maximum_level in *. simpl.
      repeat split; intros; try reflexivity; lia.
  - unfold BeanContainer.missing_capacity in *.
    destruct (Z_lt_ge_dec (BeanContainer.current_level box + amount)
                (BeanContainer.maximum_level box)) as [Hs|Hs].
    + rewrite BeanContainer_refill_partial by assumption.
      unfold BeanContainer.is_full, BeanContainer.current_level,
        BeanContainer.maximum_level in *. simpl.
      repeat split; intros; try discriminate; lia.
    + rewrite BeanContainer_refill_full by lia.
      unfold BeanContainer.is_full, BeanContainer.current_level,
        BeanContainer.maximum_level in *. simpl.
      repeat split; intros; try reflexivity; lia.
Qed.

Lemma refill_fills_missing_capacity_witness :
  let tank := {| WaterTank._maximum_level := 500;
                 WaterTank._current_level := 150 |} in
  0 < 350
  /\ WaterTank.missing_capacity (snd (WaterTank.refill 350 tank)) = 0
  /\ WaterTank.is_full (snd (WaterTank.refill 350 tank)) = true.
Proof.
  intros tank.
  assert (Hmiss : WaterTank.missing_capacity tank = 350) by reflexivity.
  split; [lia|].
  destruct (refill_fills_missing_capacity 350 tank
              {| BeanContainer._maximum_grams := 1;
                 BeanContainer._current_grams := 0 |})
    as [[Hm [_ Hf]] _]; [lia|].
  split; [rewrite Hm, Hmiss; reflexivity | apply Hf; rewrite Hmiss; lia].
Defined.

(** X3. Consuming an amount and refilling the same amount gives the
    container back as it was, with NOW_FULL exactly when it was full;
    refilling and then consuming the same amount gives it back whenever the
    refill fits below the capacity. *)
Theorem consume_and_refill_cancel (amount : Z) (tank : WaterTank.t)
    (box : BeanContainer.t) :
  0 < amount ->
  (amount <= WaterTank.current_level tank <= WaterTank.maximum_level tank ->
   (WaterTank.consume_water amount ;> WaterTank.refill amount) tank
   = (Returned (if WaterTank.is_full tank
                then WaterTank.NOW_FULL else WaterTank.STILL_NOT_FULL), tank))
  /\ (0 <= WaterTank.current_level tank
      /\ WaterTank.current_level tank + amount < WaterTank.maximum_level tank ->
      (WaterTank.refill amount ;> WaterTank.consume_water amount) tank
      = (Returned tt, tank))
  /\ (amount <= BeanContainer.current_level box
                <= BeanContainer.maximum_level box ->
      (BeanContainer.consume_beans amount ;> BeanContainer.refill amount) box
      = (Returned (if BeanContainer.is_full box
                   then BeanContainer.NOW_FULL
                   else BeanContainer.STILL_NOT_FULL), box))
  /\ (0 <= BeanContainer.current_level box
      /\ BeanContainer.current_level box + amount
         < BeanContainer.maximum_level box ->
      (BeanContainer.refill amount ;> BeanContainer.consume_beans amount) box
      = (Returned tt, box)).
Proof.
  intros Hpos. destruct tank as [wmax wcur], box as [bmax bcur].
  unfold WaterTank.consume_water, WaterTank.refill, WaterTank.is_full,
    WaterTank.current_level, WaterTank.maximum_level, WaterTank.set_current,
    BeanContainer.consume_beans, BeanContainer.refill, BeanContainer.is_full,
    BeanContainer.current_level, BeanContainer.maximum_level,
    BeanContainer.set_current.
  simpl. repeat split; intros H; py_cases; f_equal; f_equal; lia.
Qed.

Lemma consume_and_refill_cancel_witness :
  let tank := {| WaterTank._maximum_level := 500;
                 WaterTank._current_level := 500 |} in
  (0 < 30 /\ 30 <= WaterTank.current_level tank
                <= WaterTank.maximum_level tank)
  /\ (WaterTank.consume_water 30 ;> WaterTank.refill 30) tank
     = (Returned WaterTank.NOW_FULL, tank).
Proof.
  intros tank. split; [simpl; lia|].
  apply (consume_and_refill_cancel 30 tank
           {| BeanContainer._maximum_grams := 1;
              BeanContainer._current_grams := 0 |}); [lia | simpl; lia].
Defined.

(** X4. An empty container refuses every consume call and stays as it is;
    consuming exactly what a container holds empties it. *)
Theorem empty_container_refuses (amount : Z) (tank : WaterTank.t)
    (box : BeanContainer.t) :
  (WaterTank.is_empty tank = true ->
   exists e, WaterTank.consume_water amount tank = (Raised e, tank))
  /\ (0 < WaterTank.current_level tank ->
      fst (WaterTank.consume_water (WaterTank.current_level tank) tank)
      = Returned tt
      /\ WaterTank.is_empty
           (snd (WaterTank.consume_water (WaterTank.current_level tank) tank))
         = true)
  /\ (BeanContainer.is_empty box = true ->
      exists e, BeanContainer.consume_beans amount box = (Raised e, box))
  /\ (0 < BeanContainer.current_level box ->
      fst (BeanContainer.consume_beans (BeanContainer.current_level box) box)
      = Returned tt
      /\ BeanContainer.is_empty
           (snd (BeanContainer.consume_beans
                   (BeanContainer.current_level box) box))
         = true).
Proof.
  repeat apply conj.
  - unfold WaterTank.is_empty. intros Hempty.
    destruct (Z_le_gt_dec amount 0).
    + eexists. apply consume_water_invalid. assumption.
    + eexists. apply consume_water_short;
        unfold WaterTank.current_level; lia.
  - intros Hpos. rewrite consume_water_ok by lia.
    unfold WaterTank.is_empty. simpl. split; [reflexivity | lia].
  - unfold BeanContainer.is_empty. intros Hempty.
    destruct (Z_le_gt_dec amount 0).
    + eexists. apply consume_beans_invalid. assumption.
    + eexists. apply consume_beans_short;
        unfold BeanContainer.current_level; lia.
  - intros Hpos. rewrite consume_beans_ok by lia.
    unfold BeanContainer.is_empty. simpl. split; [reflexivity | lia].
Qed.

Lemma empty_container_refuses_witness :
  let tank := {| WaterTank._maximum_level := 500;
                 WaterTank._current_level := 0 |} in
  WaterTank.is_empty tank = true
  /\ exists e, WaterTank.consume_water 1 tank = (Raised e, tank).
Proof.
  intros tank. split; [reflexivity|].
  apply (empty_container_refuses 1 tank
           {| BeanContainer._maximum_grams := 1;
              BeanContainer._current_grams := 0 |}).
  reflexivity.
Defined.

(** X5. A constructed container, after any sequence of consume and refill
    calls, still has a positive capacity, misses between 0 and its capacity,
    is full exactly when nothing is missing, is empty exactly when its whole
    capacity is missing, and is never both empty and full. *)
Theorem container_queries_agree (maximum initial : Z)
    (cs : list ContainerCall) (tank : WaterTank.t) (box : BeanContainer.t) :
  WaterTank.__init__ maximum initial = Returned tank ->
  BeanContainer.__init__ maximum initial = Returned box ->
  (let tank' := after_calls WaterTank_call cs tank in
   0 < WaterTank.maximum_level tank'
   /\ 0 <= WaterTank.missing_capacity tank' <= WaterTank.maximum_level tank'
   /\ (WaterTank.is_full tank' = true
       <-> WaterTank.missing_capacity tank' = 0)
   /\ (WaterTank.is_empty tank' = true
       <-> WaterTank.missing_capacity tank' = WaterTank.maximum_level tank')
   /\ ~ (WaterTank.is_empty tank' = true /\ WaterTank.is_full tank' = true))
  /\ (let box' := after_calls BeanContainer_call cs box in
      0 < BeanContainer.maximum_level box'
      /\ 0 <= BeanContainer.missing_capacity box'
           <= BeanContainer.maximum_level box'
      /\ (BeanContainer.is_full box' = true
          <-> BeanContainer.missing_capacity box' = 0)
      /\ (BeanContainer.is_empty box' = true
          <-> BeanContainer.missing_capacity box'
              = BeanContainer.maximum_level box')
      /\ ~ (BeanContainer.is_empty box' = true
            /\ BeanContainer.is_full box' = true)).
Proof.
  intros Htank Hbox.
  assert (Hcfg : 0 < maximum /\ 0 <= initial <= maximum).
  { unfold WaterTank.__init__ in Htank. py_cases. }
  destruct Hcfg as [Hmax Hinit].
  rewrite WaterTank_init_ok in Htank by assumption.
  rewrite BeanContainer_init_ok in Hbox by assumption.
  injection Htank as <-. injection Hbox as <-. split.
  - destruct (after_calls_preserve _ WaterTank.current_level
                WaterTank.maximum_level WaterTank_call
                WaterTank_call_preserves cs
                {| WaterTank._maximum_level := maximum;
                   WaterTank._current_level := initial |} Hinit)
      as [Hinv Hcap].
    simpl. unfold WaterTank.missing_capacity, WaterTank.is_full,
      WaterTank.is_empty, WaterTank.current_level,
      WaterTank.maximum_level in *. simpl in Hcap. lia.
  - destruct (after_calls_preserve _ BeanContainer.current_level
                BeanContainer.maximum_level BeanContainer_call
                BeanContainer_call_preserves cs
                {| BeanContainer._maximum_grams := maximum;
                   BeanContainer._current_grams := initial |} Hinit)
      as [Hinv Hcap].
    simpl. unfold BeanContainer.missing_capacity, BeanContainer.is_full,
      BeanContainer.is_empty, BeanContainer.current_level,
      BeanContainer.maximum_level in *. simpl in Hcap. lia.
Qed.

Lemma container_queries_agree_witness :
  let cs := [Consume 100; Refill 9999; Consume 0] in
  let tank := {| WaterTank._maximum_level := 500;
                 WaterTank._current_level := 150 |} in
  let box := {| BeanContainer._maximum_grams := 500;
                BeanContainer._current_grams := 150 |} in
  (WaterTank.__init__ 500 150 = Returned tank
   /\ BeanContainer.__init__ 500 150 = Returned box)
  /\ ~ (WaterTank.is_empty (after_calls WaterTank_call cs tank) = true
        /\ WaterTank.is_full (after_calls WaterTank_call cs tank) = true).
Proof.
  intros cs tank box. split; [split; reflexivity|].
  apply (container_queries_agree 500 150 cs tank box); reflexivity.
Defined.

(** ** Refill policies *)

(** X6. The refill a container does itself is the capping policy: for a
    positive amount [CapRefillPolicy.on_refill] on the container's level and
    capacity returns the level the container's own [refill] leaves, with
    NOW_FULL exactly when the container answers NOW_FULL and never with
    OVERFLOW_ERROR; for an amount that is not positive all three raise. *)
Theorem container_refill_is_capping (self : CapRefillPolicy) (amount : Z)
    (tank : WaterTank.t) (box : BeanContainer.t) :
  (0 < amount ->
   (exists level result,
       on_refill self (WaterTank.current_level tank) amount
         (WaterTank.maximum_level tank) = Returned (level, result)
       /\ result <> OVERFLOW_ERROR
       /\ WaterTank.current_level (snd (WaterTank.refill amount tank)) = level
       /\ (fst (WaterTank.refill amount tank) = Returned WaterTank.NOW_FULL
           <-> result = NOW_FULL)
       /\ (fst (WaterTank.refill amount tank)
           = Returned WaterTank.STILL_NOT_FULL <-> result = STILL_NOT_FULL))
   /\ (exists level result,
       on_refill self (BeanContainer.current_level box) amount
         (BeanContainer.maximum_level box) = Returned (level, result)
       /\ result <> OVERFLOW_ERROR
       /\ BeanContainer.current_level (snd (BeanContainer.refill amount box))
          = level
       /\ (fst (BeanContainer.refill amount box)
           = Returned BeanContainer.NOW_FULL <-> result = NOW_FULL)
       /\ (fst (BeanContainer.refill amount box)
           = Returned BeanContainer.STILL_NOT_FULL
           <-> result = STILL_NOT_FULL)))
  /\ (amount <= 0 ->
      on_refill self (WaterTank.current_level tank) amount
        (WaterTank.maximum_level tank) = Raised ValueError
      /\ WaterTank.refill amount tank
         = (Raised InvalidWaterOperationError, tank)
      /\ BeanContainer.refill amount box
         = (Raised InvalidBeanOperationError, box)).
Proof.
  unfold on_refill, CapRefillPolicy_RefillPolicy, CapRefillPolicy_on_refill.
  split.
  - intros Hpos. destruct (amount <=? 0) eqn:E; [lia|]. split.
    + destruct (Z_lt_ge_dec (WaterTank.current_level tank + amount)
                  (WaterTank.maximum_level tank)) as [Hs|Hs].
      * rewrite WaterTank_refill_partial by assumption.
        destruct (_ >=? _) eqn:E'; [lia|].
        do 2 eexists. split; [reflexivity|].
        simpl. repeat split; intros; try discriminate; reflexivity.
      * rewrite WaterTank_refill_full by lia.
        destruct (_ >=? _) eqn:E'; [|lia].
        do 2 eexists. split; [reflexivity|].
        simpl. repeat split; intros; try discriminate; reflexivity.
    + destruct (Z_lt_ge_dec (BeanContainer.current_level box + amount)
                  (BeanContainer.maximum_level box)) as [Hs|Hs].
      * rewrite BeanContainer_refill_partial by assumption.
        destruct (_ >=? _) eqn:E'; [lia|].
        do 2 eexists. split; [reflexivity|].
        simpl. repeat split; intros; try discriminate; reflexivity.
      * rewrite BeanContainer_refill_full by lia.
        destruct (_ >=? _) eqn:E'; [|lia].
        do 2 eexists. split; [reflexivity|].
        simpl. repeat split; intros; try discriminate; reflexivity.
  - intros Hle. destruct (amount <=? 0) eqn:E; [|lia].
    repeat split.
    + apply WaterTank_refill_invalid. assumption.
    + apply BeanContainer_refill_invalid. assumption.
Qed.

Lemma container_refill_is_capping_witness :
  let tank := {| WaterTank._maximum_level := 500;
                 WaterTank._current_level := 450 |} in
  0 < 200
  /\ exists level result,
       on_refill CapRefillPolicy__init__ 450 200 500
       = Returned (level, result)
       /\ result <> OVERFLOW_ERROR
       /\ WaterTank.current_level (snd (WaterTank.refill 200 tank)) = level.
Proof.
  intros tank. split; [lia|].
  destruct (proj1 (container_refill_is_capping CapRefillPolicy__init__ 200
                     tank {| BeanContainer._maximum_grams := 1;
                             BeanContainer._current_grams := 0 |}))
    as [(level & result & Hcap & Hno & Hlevel & _) _]; [lia|].
  exists level, result. repeat split; assumption.
Defined.

(** X7. For a positive amount the strict and the capping policy return the
    same level and result whenever [current + amount <= maximum]; when
    [current + amount > maximum] the strict one keeps the level and reports
    OVERFLOW_ERROR where the capping one returns the maximum and NOW_FULL. *)
Theorem strict_and_cap_differ_on_overflow (strict : StrictRefillPolicy)
    (cap : CapRefillPolicy) (current amount maximum : Z) :
  0 < amount ->
  (current + amount <= maximum ->
   on_refill strict current amount maximum
   = on_refill cap current amount maximum)
  /\ (maximum < current + amount ->
      on_refill strict current amount maximum
      = Returned (current, OVERFLOW_ERROR)
      /\ on_refill cap current amount maximum
         = Returned (maximum, NOW_FULL)).
Proof.
  intros Hpos.
  unfold on_refill, StrictRefillPolicy_RefillPolicy,
    CapRefillPolicy_RefillPolicy, StrictRefillPolicy_on_refill,
    CapRefillPolicy_on_refill.
  split; intros H; [|split]; py_cases.
Qed.

Lemma strict_and_cap_differ_on_overflow_witness :
  (0 < 50 /\ 200 < 180 + 50)
  /\ on_refill StrictRefillPolicy__init__ 180 50 200
     = Returned (180, OVERFLOW_ERROR)
  /\ on_refill CapRefillPolicy__init__ 180 50 200 = Returned (200, NOW_FULL).
Proof.
  split; [lia|].
  apply (strict_and_cap_differ_on_overflow StrictRefillPolicy__init__
           CapRefillPolicy__init__ 180 50 200); lia.
Defined.

(** X8. Given a level that is not above the maximum and a positive amount,
    both policies return a level between the current one and the maximum;
    NOW_FULL comes with the maximum, STILL_NOT_FULL with
    [current + amount] below the maximum, OVERFLOW_ERROR with the level
    unchanged, and the capping policy never reports OVERFLOW_ERROR. *)
Theorem refill_policies_stay_in_bounds (strict : StrictRefillPolicy)
    (cap : CapRefillPolicy) (current amount maximum : Z) :
  0 < amount -> current <= maximum ->
  (exists level result,
      on_refill cap current amount maximum = Returned (level, result)
      /\ current <= level <= maximum
      /\ level = Z.min (current + amount) maximum
      /\ result <> OVERFLOW_ERROR
      /\ (result = NOW_FULL -> level = maximum)
      /\ (result = STILL_NOT_FULL ->
          level = current + amount /\ level < maximum))
  /\ (exists level result,
      on_refill strict current amount maximum = Returned (level, result)
      /\ current <= level <= maximum
      /\ (result = NOW_FULL -> level = maximum)
      /\ (result = STILL_NOT_FULL ->
          level = current + amount /\ level < maximum)
      /\ (result = OVERFLOW_ERROR -> level = current)).
Proof.
  intros Hpos Hle.
  unfold on_refill, StrictRefillPolicy_RefillPolicy,
    CapRefillPolicy_RefillPolicy, StrictRefillPolicy_on_refill,
    CapRefillPolicy_on_refill.
  destruct (amount <=? 0) eqn:E; [lia|]. split.
  - destruct (current + amount >=? maximum) eqn:E1;
      do 2 eexists; (split; [reflexivity|]);
      repeat split; intros; try discriminate; lia.
  - destruct (current + amount >? maximum) eqn:E1;
      [|destruct (current + amount =? maximum) eqn:E2];
      do 2 eexists; (split; [reflexivity|]);
      repeat split; intros; try discriminate; lia.
Qed.

Lemma refill_policies_stay_in_bounds_witness :
  (0 < 50 /\ 100 <= 200)
  /\ exists level result,
       on_refill CapRefillPolicy__init__ 100 50 200 = Returned (level, result)
       /\ 100 <= level <= 200.
Proof.
  split; [lia|].
  destruct (refill_policies_stay_in_bounds StrictRefillPolicy__init__
              CapRefillPolicy__init__ 100 50 200)
    as [(level & result & Hcap & Hbounds & _) _]; [lia | lia |].
  exists level, result. split; assumption.
Defined.

(** ** Recipes *)




(** X10. A recipe that was constructed requires water exactly when its
    [water_ml] is not 0 and beans exactly when its [beans_g] is not 0, and
    its amounts are within the documented bounds. *)
Theorem constructed_recipe_requirements (nm : string) (water beans : Z)
    (g : option CoffeeRecipeGrindLevel) (recipe : CoffeeRecipe) :
  CoffeeRecipe__init__ nm water beans g = Returned recipe ->
  0 <= water_ml recipe <= MAX_WATER_ML
  /\ 0 <= beans_g recipe <= MAX_BEANS_G
  /\ (requires_water recipe = false <-> water_ml recipe = 0)
  /\ (requires_beans recipe = false <-> beans_g recipe = 0)
  /\ name recipe = nm /\ water_ml recipe = water /\ beans_g recipe = beans
  /\ grind recipe = g.
Proof.
  unfold CoffeeRecipe__init__, requires_water, requires_beans.
  intros H. py_cases. repeat split; lia.
Qed.

Lemma constructed_recipe_requirements_witness :
  let recipe := {| name := "hot water"; water_ml := 200; beans_g := 0;
                   grind := None |} in
  CoffeeRecipe__init__ "hot water" 200 0 None = Returned recipe
  /\ requires_water recipe = true /\ requires_beans recipe = false.
Proof.
  intros recipe. split; [reflexivity|].
  destruct (constructed_recipe_requirements "hot water" 200 0 None recipe
              eq_refl) as (_ & _ & _ & Hb & _).
  split; [reflexivity | apply Hb; reflexivity].
Defined.

(** X11. [as_dict] has exactly the keys name, water_ml, beans_g and grind,
    holds the fields under them (the grind as its name, or None), and loses
    nothing: recipes with equal dicts are equal. *)
Theorem as_dict_keeps_every_field (r1 r2 : CoffeeRecipe) :
  dom (as_dict r1)
  = ({[ "name"; "water_ml"; "beans_g"; "grind" ]} : gset string)
  /\ as_dict r1 !! "name" = Some (PyStr (name r1))
  /\ as_dict r1 !! "water_ml" = Some (PyInt (water_ml r1))
  /\ as_dict r1 !! "beans_g" = Some (PyInt (beans_g r1))
  /\ (as_dict r1 !! "grind" = Some PyNone <-> grind r1 = None)
  /\ (as_dict r1 = as_dict r2 -> r1 = r2).
Proof.
  unfold as_dict. split; [|split; [|split; [|split; [|split]]]].
  - rewrite !dom_insert_L, dom_empty_L. set_solver.
  - by simplify_map_eq.
  - by simplify_map_eq.
  - by simplify_map_eq.
  - simplify_map_eq.
    destruct (grind r1); split; intros Hg;
      first [discriminate | reflexivity].
  - intros Heq.
    assert (Hn := f_equal (fun d => d !! "name") Heq).
    assert (Hw := f_equal (fun d => d !! "water_ml") Heq).
    assert (Hb := f_equal (fun d => d !! "beans_g") Heq).
    assert (Hg := f_equal (fun d => d !! "grind") Heq).
    simpl in Hn, Hw, Hb, Hg. simplify_map_eq.
    destruct r1 as [n1 w1 b1 g1], r2 as [n2 w2 b2 g2]. simpl in *.
    f_equal; try congruence.
    destruct g1 as [[]|], g2 as [[]|]; simpl in Hg; congruence.
Qed.

(** ** Brew policy *)

(** X12. The decision table of [DefaultBrewPolicy.can_brew] on a dirty
    count: RECIPE_FORBIDDEN exactly for a recipe that requires nothing when
    such recipes are not allowed; OUT_OF_WATER exactly when water is
    required and short; OUT_OF_BEANS exactly when water is not short and
    beans are required and short; NEEDS_CLEANING exactly when the recipe
    requires something, nothing is short and the dirty count has reached
    [clean_threshold]; OK exactly when the recipe requires nothing and that
    is allowed (whatever the dirty count), or it requires something, nothing
    is short and the dirty count is below the threshold; never ERROR. *)
Theorem can_brew_decision_table (self : DefaultBrewPolicy)
    (recipe : CoffeeRecipe) (water beans dirty : Z) :
  let decision :=
    can_brew self recipe water beans (Some {[ "dirty_count" := dirty ]}) in
  let nothing_required := water_ml recipe <= 0 /\ beans_g recipe <= 0 in
  let water_short := 0 < water_ml recipe /\ water < water_ml recipe in
  let beans_short := 0 < beans_g recipe /\ beans < beans_g recipe in
  (decision = RECIPE_FORBIDDEN
   <-> nothing_required /\ allow_recipe_with_no_requirements self = false)
  /\ (decision = OUT_OF_WATER <-> water_short)
  /\ (decision = OUT_OF_BEANS <-> ~ water_short /\ beans_short)
  /\ (decision = NEEDS_CLEANING
      <-> ~ nothing_required /\ ~ water_short /\ ~ beans_short
          /\ clean_threshold self <= dirty)
  /\ (decision = OK
      <-> (nothing_required /\ allow_recipe_with_no_requirements self = true)
          \/ (~ nothing_required /\ ~ water_short /\ ~ beans_short
              /\ dirty < clean_threshold self))
  /\ decision <> ERROR.
Proof.
  intros decision nothing_required water_short beans_short.
  subst decision nothing_required water_short beans_short.
  unfold can_brew, DefaultBrewPolicy_BrewPolicy, DefaultBrewPolicy_can_brew.
  rewrite dirty_count_of_singleton. unfold requires_water, requires_beans.
  destruct (allow_recipe_with_no_requirements self);
    destruct (water_ml recipe >? 0) eqn:Ew;
    destruct (beans_g recipe >? 0) eqn:Eb; simpl;
    try destruct (water <? water_ml recipe) eqn:Ews;
    try destruct (beans <? beans_g recipe) eqn:Ebs; simpl;
    try destruct (dirty >=? clean_threshold self) eqn:Ed;
    repeat split; intros; try discriminate; try lia; try tauto;
    try (left; lia); try (right; lia).
Qed.

(** X13. More water, more beans or a lower dirty count never turn an OK of
    [DefaultBrewPolicy.can_brew] into a refusal. *)
Theorem can_brew_OK_is_monotone (self : DefaultBrewPolicy)
    (recipe : CoffeeRecipe) (water beans dirty water' beans' dirty' : Z) :
  water <= water' -> beans <= beans' -> dirty' <= dirty ->
  can_brew self recipe water beans (Some {[ "dirty_count" := dirty ]}) = OK ->
  can_brew self recipe water' beans' (Some {[ "dirty_count" := dirty' ]})
  = OK.
Proof.
  intros Hw Hb Hd.
  unfold can_brew, DefaultBrewPolicy_BrewPolicy, DefaultBrewPolicy_can_brew.
  rewrite !dirty_count_of_singleton. unfold requires_water, requires_beans.
  destruct (water_ml recipe >? 0) eqn:Ew;
    destruct (beans_g recipe >? 0) eqn:Eb; simpl;
    repeat case_match; intros; try discriminate; try reflexivity; lia.
Qed.

Lemma can_brew_OK_is_monotone_witness :
  let policy := {| clean_threshold := 5;
                   allow_recipe_with_no_requirements := false |} in
  let espresso := {| name := "espresso"; water_ml := 30; beans_g := 8;
                     grind := None |} in
  (30 <= 150 /\ 8 <= 50 /\ 0 <= 4
   /\ can_brew policy espresso 30 8 (Some {[ "dirty_count" := 4 ]}) = OK)
  /\ can_brew policy espresso 150 50 (Some {[ "dirty_count" := 0 ]}) = OK.
Proof.
  intros policy espresso.
  assert (Hok : can_brew policy espresso 30 8
                  (Some {[ "dirty_count" := 4 ]}) = OK)
    by (vm_compute; reflexivity).
  split; [repeat split; try lia; exact Hok|].
  apply (can_brew_OK_is_monotone policy espresso 30 8 4 150 50 0);
    [lia | lia | lia | exact Hok].
Defined.

(** ** Cleaning policy *)

Lemma or_zero_id (x : Z) : or_zero x = x.
Proof. unfold or_zero. destruct (Z.eqb_spec x 0); congruence. Qed.

Lemma time_rule_idle_spec (self : DefaultCleaningPolicy) (now : Z)
    (last_cleaned_ts : option Z) :
  time_rule_idle self now last_cleaned_ts
  <-> match max_time_between_cleans self, last_cleaned_ts with
      | Some max_interval, Some ts => now - ts >=? max_interval
      | _, _ => false
      end = false.
Proof.
  unfold time_rule_idle. split.
  - intros [-> | [-> | (mx & ts & -> & -> & Hlt)]].
    + reflexivity.
    + destruct (max_time_between_cleans self); reflexivity.
    + lia.
  - destruct (max_time_between_cleans self) as [mx|]; [|auto].
    destruct last_cleaned_ts as [ts|]; [|auto].
    intros H. right. right. exists mx, ts. repeat split. lia.
Qed.

(** X14. For a policy that was constructed, [evaluate] answers NO_ACTION
    exactly when the time-based rule does not apply and the dirty count is
    below [schedule_threshold], SCHEDULE exactly when it does not apply and
    the count is from [schedule_threshold] up to but not including
    [immediate_threshold], and IMMEDIATE exactly when the rule applies or
    the count has reached [immediate_threshold]; construction succeeds
    exactly when [0 <= schedule_threshold <= immediate_threshold]. *)
Theorem evaluate_decision_table (schedule immediate : Z)
    (max_interval : option Z) (now dirty : Z) (last_cleaned_ts : option Z) :
  (0 <= schedule <= immediate ->
   exists self,
     DefaultCleaningPolicy__init__ schedule immediate max_interval
     = Returned self
     /\ schedule_threshold self = schedule
     /\ immediate_threshold self = immediate
     /\ max_time_between_cleans self = max_interval
     /\ (evaluate self now dirty last_cleaned_ts = NO_ACTION
         <-> time_rule_idle self now last_cleaned_ts /\ dirty < schedule)
     /\ (evaluate self now dirty last_cleaned_ts = SCHEDULE
         <-> time_rule_idle self now last_cleaned_ts
             /\ schedule <= dirty < immediate)
     /\ (evaluate self now dirty last_cleaned_ts = IMMEDIATE
         <-> ~ time_rule_idle self now last_cleaned_ts
             \/ immediate <= dirty))
  /\ (~ 0 <= schedule <= immediate ->
      DefaultCleaningPolicy__init__ schedule immediate max_interval
      = Raised ValueError).
Proof.
  unfold DefaultCleaningPolicy__init__. split.
  - intros Hcfg.
    destruct (negb ((0 <=? schedule) && (schedule <=? immediate))) eqn:E;
      [lia|].
    eexists. split; [reflexivity|]. simpl.
    do 3 (split; [reflexivity|]).
    rewrite time_rule_idle_spec.
    unfold evaluate, DefaultCleaningPolicy_CleaningPolicy,
      DefaultCleaningPolicy_evaluate. simpl. rewrite or_zero_id.
    destruct (match max_interval, last_cleaned_ts with
              | Some mx, Some ts => now - ts >=? mx
              | _, _ => false
              end).
    + repeat split; intros; try discriminate; try tauto; try lia.
    + destruct (dirty <? schedule) eqn:E1;
        [|destruct (dirty <? immediate) eqn:E2];
        repeat split; intros; try discriminate; try reflexivity; try lia;
        try (right; lia); try (destruct H; [congruence | lia]).
  - intros Hcfg.
    destruct (negb ((0 <=? schedule) && (schedule <=? immediate))) eqn:E;
      [reflexivity | lia].
Qed.

Lemma evaluate_decision_table_witness :
  0 <= 3 <= 6
  /\ exists self,
       DefaultCleaningPolicy__init__ 3 6 None = Returned self
       /\ (evaluate self 0 3 None = SCHEDULE
           <-> time_rule_idle self 0 None /\ 3 <= 3 < 6).
Proof.
  split; [lia|].
  destruct (proj1 (evaluate_decision_table 3 6 None 0 3 None))
    as (self & Hinit & _ & _ & _ & _ & Hs & _); [lia|].
  exists self. split; assumption.
Defined.

(** X15. A higher dirty count or a later clock never makes [evaluate]
    answer with a milder action. *)
Theorem evaluate_is_monotone (self : DefaultCleaningPolicy)
    (now now' dirty dirty' : Z) (last_cleaned_ts : option Z) :
  now <= now' -> dirty <= dirty' ->
  severity (evaluate self now dirty last_cleaned_ts)
  <= severity (evaluate self now' dirty' last_cleaned_ts).
Proof.
  intros Hnow Hdirty.
  unfold evaluate, DefaultCleaningPolicy_CleaningPolicy,
    DefaultCleaningPolicy_evaluate.
  rewrite !or_zero_id.
  destruct (max_time_between_cleans self) as [mx|],
    last_cleaned_ts as [ts|]; repeat case_match; simpl; lia.
Qed.

Lemma evaluate_is_monotone_witness :
  let policy := {| schedule_threshold := 3; immediate_threshold := 6;
                   max_time_between_cleans := Some 100 |} in
  (10 <= 200 /\ 4 <= 4)
  /\ severity (evaluate policy 10 4 (Some 0))
     <= severity (evaluate policy 200 4 (Some 0)).
Proof.
  intros policy. split; [lia|].
  apply (evaluate_is_monotone policy 10 200 4 4 (Some 0)); lia.
Defined.

(** ** The machine: every way a brew can end, and sequences of calls *)

Section MachineCases.
Context {BP CP RP : Type}.
Context `{!BrewPolicy BP, !CleaningPolicy CP}.

Implicit Types (m : SimpleCoffeeMachine BP CP RP) (recipe : CoffeeRecipe).

Lemma brew_water_short m recipe now :
  active_recipe m = Some recipe ->
  can_brew (brew_policy m) recipe
    (WaterTank.current_level (water_tank m))
    (BeanContainer.current_level (bean_container m))
    (Some {[ "dirty_count" := dirty_count m ]}) = OK ->
  0 < water_ml recipe ->
  WaterTank.current_level (water_tank m) < water_ml recipe ->
  brew now m = (Raised NotEnoughWaterError, m).
Proof.
  intros Hrecipe Hok Hreq Hshort. unfold brew. py_unfold.
  rewrite Hrecipe, Hok.
  destruct (decide (OK <> OK)) as [Hne|_]; [contradiction|].
  unfold requires_water. destruct (water_ml recipe >? 0) eqn:E; [|lia].
  rewrite consume_water_short by lia. destruct m; reflexivity.
Qed.

Lemma brew_beans_short m recipe now :
  active_recipe m = Some recipe ->
  can_brew (brew_policy m) recipe
    (WaterTank.current_level (water_tank m))
    (BeanContainer.current_level (bean_container m))
    (Some {[ "dirty_count" := dirty_count m ]}) = OK ->
  (requires_water recipe = true ->
   water_ml recipe <= WaterTank.current_level (water_tank m)) ->
  0 < beans_g recipe ->
  BeanContainer.current_level (bean_container m) < beans_g recipe ->
  brew now m
  = (Raised NotEnoughBeansError,
     set_water_tank
       (if requires_water recipe
        then {| WaterTank._maximum_level :=
                  WaterTank.maximum_level (water_tank m);
                WaterTank._current_level :=
                  WaterTank.current_level (water_tank m) - water_ml recipe |}
        else water_tank m) m).
Proof.
  intros Hrecipe Hok Hw Hreq Hshort. unfold brew. py_unfold.
  rewrite Hrecipe, Hok.
  destruct (decide (OK <> OK)) as [Hne|_]; [contradiction|].
  assert (Eb : requires_beans recipe = true)
    by (unfold requires_beans; lia).
  rewrite Eb.
  destruct (requires_water recipe) eqn:Ew.
  - rewrite consume_water_ok
      by (specialize (Hw eq_refl); unfold requires_water in Ew; lia).
    cbn [bean_container set_water_tank].
    rewrite consume_beans_short by lia. destruct m; reflexivity.
  - rewrite consume_beans_short by lia. destruct m; reflexivity.
Qed.

(** The five ways a brew ends. *)
Lemma brew_cases m now :
  (active_recipe m = None /\ brew now m = (Raised RuntimeError, m))
  \/ exists recipe,
       active_recipe m = Some recipe
       /\ let water := WaterTank.current_level (water_tank m) in
          let beans := BeanContainer.current_level (bean_container m) in
          let decision :=
            can_brew (brew_policy m) recipe water beans
              (Some {[ "dirty_count" := dirty_count m ]}) in
          let water_left :=
            if requires_water recipe
            then {| WaterTank._maximum_level :=
                      WaterTank.maximum_level (water_tank m);
                    WaterTank._current_level := water - water_ml recipe |}
            else water_tank m in
          let beans_left :=
            if requires_beans recipe
            then {| BeanContainer._maximum_grams :=
                      BeanContainer.maximum_level (bean_container m);
                    BeanContainer._current_grams := beans - beans_g recipe |}
            else bean_container m in
          let action :=
            evaluate (cleaning_policy m) now (dirty_count m + 1)
              (last_cleaned_ts m) in
          (decision <> OK
           /\ brew now m
              = (Returned decision, set_state (BrewDecision_name decision) m))
          \/ (decision = OK /\ 0 < water_ml recipe /\ water < water_ml recipe
              /\ brew now m = (Raised NotEnoughWaterError, m))
          \/ (decision = OK
              /\ (requires_water recipe = true -> water_ml recipe <= water)
              /\ 0 < beans_g recipe /\ beans < beans_g recipe
              /\ brew now m
                 = (Raised NotEnoughBeansError, set_water_tank water_left m))
          \/ (decision = OK
              /\ (requires_water recipe = true -> water_ml recipe <= water)
              /\ (requires_beans recipe = true -> beans_g recipe <= beans)
              /\ brew now m
                 = (Returned OK,
                    {| water_tank := water_left;
                       bean_container := beans_left;
                       brew_policy := brew_policy m;
                       cleaning_policy := cleaning_policy m;
                       refill_policy := refill_policy m;
                       state := match action with
                                | IMMEDIATE => "NEEDS_CLEANING"
                                | SCHEDULE | NO_ACTION => "IDLE"
                                end;
                       active_recipe := active_recipe m;
                       dirty_count := dirty_count m + 1;
                       last_cleaned_ts := last_cleaned_ts m;
                       cleaning_scheduled :=
                         match action with
                         | SCHEDULE => true
                         | IMMEDIATE | NO_ACTION => cleaning_scheduled m
                         end |})).
Proof.
  destruct (active_recipe m) as [recipe|] eqn:Hrecipe.
  - right. exists recipe. split; [reflexivity|].
    intros water beans decision water_left beans_left action.
    destruct (decide (decision = OK)) as [Hok|Hno].
    + destruct (Z_lt_ge_dec water (water_ml recipe)) as [Hws|Hws];
        [destruct (Z_lt_ge_dec 0 (water_ml recipe)) as [Hwr|Hwr]|].
      * right. left. repeat split; try assumption.
        apply (brew_water_short m recipe now Hrecipe Hok Hwr Hws).
      * assert (Hw : requires_water recipe = true -> water_ml recipe <= water)
          by (unfold requires_water; lia).
        destruct (Z_lt_ge_dec beans (beans_g recipe)) as [Hbs|Hbs];
          [destruct (Z_lt_ge_dec 0 (beans_g recipe)) as [Hbr|Hbr]|].
        -- right. right. left. repeat split; try assumption.
           apply (brew_beans_short m recipe now Hrecipe Hok Hw Hbr Hbs).
        -- right. right. right.
           assert (Hb : requires_beans recipe = true ->
                        beans_g recipe <= beans)
             by (unfold requires_beans; lia).
           repeat split; try assumption. rewrite <- Hrecipe.
           apply (brew_accepted m recipe now Hrecipe Hok Hw Hb).
        -- right. right. right.
           assert (Hb : requires_beans recipe = true ->
                        beans_g recipe <= beans) by lia.
           repeat split; try assumption. rewrite <- Hrecipe.
           apply (brew_accepted m recipe now Hrecipe Hok Hw Hb).
      * assert (Hw : requires_water recipe = true -> water_ml recipe <= water)
          by lia.
        destruct (Z_lt_ge_dec beans (beans_g recipe)) as [Hbs|Hbs];
          [destruct (Z_lt_ge_dec 0 (beans_g recipe)) as [Hbr|Hbr]|].
        -- right. right. left. repeat split; try assumption.
           apply (brew_beans_short m recipe now Hrecipe Hok Hw Hbr Hbs).
        -- right. right. right.
           assert (Hb : requires_beans recipe = true ->
                        beans_g recipe <= beans)
             by (unfold requires_beans; lia).
           repeat split; try assumption. rewrite <- Hrecipe.
           apply (brew_accepted m recipe now Hrecipe Hok Hw Hb).
        -- right. right. right.
           assert (Hb : requires_beans recipe = true ->
                        beans_g recipe <= beans) by lia.
           repeat split; try assumption. rewrite <- Hrecipe.
           apply (brew_accepted m recipe now Hrecipe Hok Hw Hb).
    + left. split; [assumption|].
      apply (brew_refused m recipe now Hrecipe Hno).
  - left. split; [reflexivity|]. apply brew_without_recipe. assumption.
Qed.

End MachineCases.

Section MachineSequences.
Context {BP CP RP : Type}.
Context `{!BrewPolicy BP, !CleaningPolicy CP}.

Implicit Types (m : SimpleCoffeeMachine BP CP RP) (recipe : CoffeeRecipe).

Lemma BrewDecision_name_in_states (d : BrewDecision) :
  d <> OK -> In (BrewDecision_name d) machine_states.
Proof. destruct d; simpl; intros H; tauto. Qed.

Lemma refill_water_step amount m :
  WaterTank_invariant (water_tank m) ->
  exists tank',
    snd (refill_water amount m) = set_water_tank tank' m
    /\ WaterTank_invariant tank'
    /\ WaterTank.maximum_level tank' = WaterTank.maximum_level (water_tank m)
    /\ WaterTank.current_level (water_tank m) <= WaterTank.current_level tank'.
Proof.
  intros Hinv. unfold refill_water, on_attr.
  destruct (WaterTank.refill amount (water_tank m)) as [r tank'] eqn:E.
  exists tank'. simpl. split; [reflexivity|].
  unfold WaterTank_invariant, WaterTank.refill,
    WaterTank.current_level, WaterTank.maximum_level in *.
  py_cases.
Qed.

Lemma refill_beans_step amount m :
  BeanContainer_invariant (bean_container m) ->
  exists box',
    snd (refill_beans amount m) = set_bean_container box' m
    /\ BeanContainer_invariant box'
    /\ BeanContainer.maximum_level box'
       = BeanContainer.maximum_level (bean_container m)
    /\ BeanContainer.current_level (bean_container m)
       <= BeanContainer.current_level box'.
Proof.
  intros Hinv. unfold refill_beans, on_attr.
  destruct (BeanContainer.refill amount (bean_container m)) as [r box'] eqn:E.
  exists box'. simpl. split; [reflexivity|].
  unfold BeanContainer_invariant, BeanContainer.refill,
    BeanContainer.current_level, BeanContainer.maximum_level in *.
  py_cases.
Qed.

Lemma machine_call_step c m :
  machine_sound m ->
  machine_sound (snd (machine_call c m))
  /\ WaterTank.maximum_level (water_tank (snd (machine_call c m)))
     = WaterTank.maximum_level (water_tank m)
  /\ BeanContainer.maximum_level (bean_container (snd (machine_call c m)))
     = BeanContainer.maximum_level (bean_container m)
  /\ brew_policy (snd (machine_call c m)) = brew_policy m
  /\ cleaning_policy (snd (machine_call c m)) = cleaning_policy m
  /\ refill_policy (snd (machine_call c m)) = refill_policy m
  /\ active_recipe (snd (machine_call c m))
     = match c with
       | SelectRecipe recipe => Some recipe
       | _ => active_recipe m
       end.
Proof.
  unfold machine_sound, WaterTank_invariant, BeanContainer_invariant.
  intros (Hw & Hb & Hd & Hs).
  destruct c as [recipe|now|now| |amount|amount]; simpl.
  - repeat split; try assumption; lia.
  - unfold bind.
    destruct (brew_cases m now)
      as [[Hnone ->] | (recipe & Hrecipe & Hcases)].
    + simpl. repeat split; try assumption; lia.
    + unfold requires_water, requires_beans in Hcases.
      destruct Hcases
        as [(Hno & ->) | [(Hok & Hreq & Hshort & ->)
           | [(Hok & Hsuff & Hreq & Hshort & ->)
           | (Hok & Hsw & Hsb & ->)]]]; simpl.
      * repeat split; try assumption; try lia.
        apply BrewDecision_name_in_states. exact Hno.
      * repeat split; try assumption; lia.
      * destruct (water_ml recipe >? 0) eqn:Ew; simpl;
          repeat split; try assumption; try lia;
          unfold WaterTank.current_level, WaterTank.maximum_level in *;
          simpl; lia.
      * destruct (water_ml recipe >? 0) eqn:Ew;
          destruct (beans_g recipe >? 0) eqn:Eb; simpl;
          (repeat split; try assumption; try lia;
           try (destruct (evaluate _ _ _ _); simpl; tauto);
           unfold WaterTank.current_level, WaterTank.maximum_level,
             BeanContainer.current_level, BeanContainer.maximum_level in *;
           simpl; lia).
  - repeat split; try assumption; try lia. simpl. tauto.
  - repeat split; try assumption; lia.
  - unfold bind.
    destruct (refill_water_step amount m Hw) as (tank' & E & Hinv & Hmax & _).
    destruct (refill_water amount m) as [r m'] eqn:Er. simpl in E. subst m'.
    unfold WaterTank_invariant in Hinv.
    destruct r; simpl; repeat split; try assumption; lia.
  - unfold bind.
    destruct (refill_beans_step amount m Hb) as (box' & E & Hinv & Hmax & _).
    destruct (refill_beans amount m) as [r m'] eqn:Er. simpl in E. subst m'.
    unfold BeanContainer_invariant in Hinv.
    destruct r; simpl; repeat split; try assumption; lia.
Qed.

Lemma after_machine_calls_cons c cs m :
  after_machine_calls (c :: cs) m
  = after_machine_calls cs (snd (machine_call c m)).
Proof. reflexivity. Qed.

Lemma machine_calls_keep cs : forall m,
  machine_sound m ->
  machine_sound (after_machine_calls cs m)
  /\ WaterTank.maximum_level (water_tank (after_machine_calls cs m))
     = WaterTank.maximum_level (water_tank m)
  /\ BeanContainer.maximum_level (bean_container (after_machine_calls cs m))
     = BeanContainer.maximum_level (bean_container m)
  /\ brew_policy (after_machine_calls cs m) = brew_policy m
  /\ cleaning_policy (after_machine_calls cs m) = cleaning_policy m
  /\ refill_policy (after_machine_calls cs m) = refill_policy m.
Proof.
  induction cs as [|c cs IH]; intros m Hm.
  - repeat split; try reflexivity; apply Hm.
  - rewrite after_machine_calls_cons.
    destruct (machine_call_step c m Hm)
      as (Hm' & Hw & Hb & Hbp & Hcp & Hrp & _).
    destruct (IH _ Hm') as (Hm'' & Hw' & Hb' & Hbp' & Hcp' & Hrp').
    repeat split; try apply Hm''; congruence.
Qed.

End MachineSequences.

(** X16. Whatever the policies, a machine built from two constructed
    containers keeps, after any sequence of calls (select, brew, clean,
    schedule, refill; failed calls included): both levels between 0 and the
    capacities given at construction, a dirty count that is not negative, a
    [state] that is IDLE, NEEDS_CLEANING or the name of a refusal (never OK),
    and the policies it was built with. *)
Theorem machine_stays_sound :
  forall (BP CP RP : Type) (BPI : BrewPolicy BP) (CPI : CleaningPolicy CP)
         (wmax winit bmax binit : Z) (tank : WaterTank.t)
         (box : BeanContainer.t) (bp : BP) (cp : CP) (rp : RP)
         (cs : list MachineCall),
    WaterTank.__init__ wmax winit = Returned tank ->
    BeanContainer.__init__ bmax binit = Returned box ->
    let m := after_machine_calls cs
               (SimpleCoffeeMachine__init__ tank box bp cp rp) in
    0 <= WaterTank.current_level (water_tank m) <= wmax
    /\ WaterTank.maximum_level (water_tank m) = wmax
    /\ 0 <= BeanContainer.current_level (bean_container m) <= bmax
    /\ BeanContainer.maximum_level (bean_container m) = bmax
    /\ 0 <= dirty_count m
    /\ In (state m) machine_states
    /\ state m <> "OK"
    /\ brew_policy m = bp /\ cleaning_policy m = cp /\ refill_policy m = rp.
Proof.
  intros BP CP RP BPI CPI wmax winit bmax binit tank box bp cp rp cs Ht Hb m.
  assert (Hwcfg : 0 < wmax /\ 0 <= winit <= wmax)
    by (unfold WaterTank.__init__ in Ht; py_cases).
  assert (Hbcfg : 0 < bmax /\ 0 <= binit <= bmax)
    by (unfold BeanContainer.__init__ in Hb; py_cases).
  rewrite WaterTank_init_ok in Ht by tauto.
  rewrite BeanContainer_init_ok in Hb by tauto.
  injection Ht as <-. injection Hb as <-.
  destruct (machine_calls_keep cs
              (SimpleCoffeeMachine__init__
                 {| WaterTank._maximum_level := wmax;
                    WaterTank._current_level := winit |}
                 {| BeanContainer._maximum_grams := bmax;
                    BeanContainer._current_grams := binit |} bp cp rp))
    as ((Hw & Hbn & Hd & Hs) & Hwm & Hbm & Hbp & Hcp & Hrp).
  { unfold machine_sound, WaterTank_invariant, BeanContainer_invariant.
    simpl. repeat split; try lia. tauto. }
  fold m in Hw, Hbn, Hd, Hs, Hwm, Hbm, Hbp, Hcp, Hrp.
  unfold WaterTank_invariant, BeanContainer_invariant in *.
  simpl in Hwm, Hbm, Hbp, Hcp, Hrp.
  repeat split; try assumption; try lia.
  intros Heq. rewrite Heq in Hs. simpl in Hs.
  repeat destruct Hs as [Hs|Hs]; try discriminate. exact Hs.
Qed.

Lemma machine_stays_sound_witness :
  let cs := [Brew 0; SelectRecipe {| name := "espresso"; water_ml := 30;
                                     beans_g := 8; grind := None |};
             Brew 1; RefillWater (-3); Brew 2; Clean 3; RefillBeans 900] in
  let tank := {| WaterTank._maximum_level := 500;
                 WaterTank._current_level := 150 |} in
  let box := {| BeanContainer._maximum_grams := 500;
                BeanContainer._current_grams := 50 |} in
  let m := after_machine_calls cs
             (SimpleCoffeeMachine__init__ tank box TrustingBrewPolicy__init__
                {| schedule_threshold := 1; immediate_threshold := 2;
                   max_time_between_cleans := None |}
                CapRefillPolicy__init__) in
  (WaterTank.__init__ 500 150 = Returned tank
   /\ BeanContainer.__init__ 500 50 = Returned box)
  /\ 0 <= WaterTank.current_level (water_tank m) <= 500
  /\ state m <> "OK".
Proof.
  intros cs tank box m. split; [split; reflexivity|].
  destruct (machine_stays_sound _ _ _ _ _ 500 150 500 50 tank box
              TrustingBrewPolicy__init__
              {| schedule_threshold := 1; immediate_threshold := 2;
                 max_time_between_cleans := None |}
              CapRefillPolicy__init__ cs eq_refl eq_refl)
    as (Hw & _ & _ & _ & _ & _ & Hs & _).
  split; [exact Hw | exact Hs].
Defined.

Section Selection.
Context {BP CP RP : Type}.
Context `{!BrewPolicy BP, !CleaningPolicy CP}.

Implicit Types (m : SimpleCoffeeMachine BP CP RP).

Lemma machine_call_recipe c m :
  active_recipe (snd (machine_call c m))
  = match c with
    | SelectRecipe recipe => Some recipe
    | _ => active_recipe m
    end.
Proof.
  destruct c as [recipe|now|now| |amount|amount]; simpl; try reflexivity.
  - unfold bind.
    destruct (brew_cases m now)
      as [[Hnone ->] | (recipe & Hrecipe & Hcases)]; [reflexivity|].
    destruct Hcases
      as [(_ & ->) | [(_ & _ & _ & ->) | [(_ & _ & _ & _ & ->)
         | (_ & _ & _ & ->)]]]; reflexivity.
  - unfold bind, refill_water, on_attr.
    destruct (WaterTank.refill amount (water_tank m)) as [[?|?] ?];
      reflexivity.
  - unfold bind, refill_beans, on_attr.
    destruct (BeanContainer.refill amount (bean_container m)) as [[?|?] ?];
      reflexivity.
Qed.

Lemma after_machine_calls_recipe cs : forall m,
  active_recipe (after_machine_calls cs m)
  = fold_left (fun selected c => match c with
                                 | SelectRecipe recipe => Some recipe
                                 | _ => selected
                                 end) cs (active_recipe m).
Proof.
  induction cs as [|c cs IH]; intros m; [reflexivity|].
  rewrite after_machine_calls_cons, IH, machine_call_recipe. reflexivity.
Qed.

End Selection.

(** X17. The active recipe is the one of the last [select_recipe] call: no
    other call changes it.  On a newly built machine, after any calls among
    which no recipe was selected, [brew] raises RuntimeError and leaves the
    machine as it is. *)
Theorem brew_needs_a_selected_recipe :
  forall (BP CP RP : Type) (BPI : BrewPolicy BP) (CPI : CleaningPolicy CP)
         (m : SimpleCoffeeMachine BP CP RP) (cs : list MachineCall),
    active_recipe (after_machine_calls cs m)
    = fold_left (fun selected c => match c with
                                   | SelectRecipe recipe => Some recipe
                                   | _ => selected
                                   end) cs (active_recipe m)
    /\ forall tank box bp cp rp now,
         m = SimpleCoffeeMachine__init__ tank box bp cp rp ->
         Forall (fun c => match c with
                          | SelectRecipe _ => False
                          | _ => True
                          end) cs ->
         brew now (after_machine_calls cs m)
         = (Raised RuntimeError, after_machine_calls cs m).
Proof.
  intros BP CP RP BPI CPI m cs. split.
  - apply after_machine_calls_recipe.
  - intros tank box bp cp rp now -> Hnone.
    apply brew_without_recipe. rewrite after_machine_calls_recipe. simpl.
    induction Hnone as [|c cs Hc _ IH]; [reflexivity|].
    destruct c; simpl; try exact IH. contradiction.
Qed.

Lemma brew_needs_a_selected_recipe_witness :
  let m := SimpleCoffeeMachine__init__
             {| WaterTank._maximum_level := 500;
                WaterTank._current_level := 150 |}
             {| BeanContainer._maximum_grams := 500;
                BeanContainer._current_grams := 50 |}
             {| clean_threshold := 5;
                allow_recipe_with_no_requirements := false |}
             {| schedule_threshold := 3; immediate_threshold := 6;
                max_time_between_cleans := None |}
             CapRefillPolicy__init__ in
  let cs := [RefillWater 100; Clean 7; Brew 8; ScheduleCleaning] in
  Forall (fun c => match c with
                   | SelectRecipe _ => False
                   | _ => True
                   end) cs
  /\ brew 9 (after_machine_calls cs m)
     = (Raised RuntimeError, after_machine_calls cs m).
Proof.
  intros m cs.
  assert (Hnone : Forall (fun c => match c with
                                   | SelectRecipe _ => False
                                   | _ => True
                                   end) cs)
    by (repeat constructor).
  split; [exact Hnone|].
  apply (proj2 (brew_needs_a_selected_recipe _ _ _ _ _ m cs)
           _ _ _ _ _ 9 eq_refl Hnone).
Defined.

(** ** The machine with the default brew policy *)

Lemma DefaultBrewPolicy_OK_below_threshold (self : DefaultBrewPolicy)
    (recipe : CoffeeRecipe) (water beans dirty : Z) :
  allow_recipe_with_no_requirements self = false ->
  can_brew self recipe water beans (Some {[ "dirty_count" := dirty ]}) = OK ->
  dirty < clean_threshold self.
Proof.
  intros Hallow.
  unfold can_brew, DefaultBrewPolicy_BrewPolicy, DefaultBrewPolicy_can_brew.
  rewrite dirty_count_of_singleton, Hallow.
  repeat case_match; intros; try discriminate; lia.
Qed.

Lemma DefaultBrewPolicy_cleaning_is_the_last_test (self : DefaultBrewPolicy)
    (recipe : CoffeeRecipe) (water beans dirty dirty' : Z) :
  can_brew self recipe water beans (Some {[ "dirty_count" := dirty ]})
  = NEEDS_CLEANING ->
  dirty' < clean_threshold self ->
  can_brew self recipe water beans (Some {[ "dirty_count" := dirty' ]}) = OK.
Proof.
  unfold can_brew, DefaultBrewPolicy_BrewPolicy, DefaultBrewPolicy_can_brew.
  rewrite !dirty_count_of_singleton.
  repeat case_match; intros; try discriminate; try reflexivity; lia.
Qed.

Section DefaultPolicyMachine.
Context {CP RP : Type} `{!CleaningPolicy CP}.

Implicit Types (m : SimpleCoffeeMachine DefaultBrewPolicy CP RP).

Lemma machine_call_dirty_bound c m :
  allow_recipe_with_no_requirements (brew_policy m) = false ->
  0 <= clean_threshold (brew_policy m) ->
  dirty_count m <= clean_threshold (brew_policy m) ->
  dirty_count (snd (machine_call c m))
  <= clean_threshold (brew_policy (snd (machine_call c m)))
  /\ brew_policy (snd (machine_call c m)) = brew_policy m.
Proof.
  intros Hallow Hthr Hd.
  destruct c as [recipe|now|now| |amount|amount]; simpl;
    try (split; [assumption | reflexivity]).
  - unfold bind.
    destruct (brew_cases m now)
      as [[Hnone ->] | (recipe & Hrecipe & Hcases)];
      [split; [assumption | reflexivity]|].
    destruct Hcases
      as [(_ & ->) | [(_ & _ & _ & ->) | [(_ & _ & _ & _ & ->)
         | (Hok & _ & _ & ->)]]]; simpl;
      try (split; [assumption | reflexivity]).
    pose proof (DefaultBrewPolicy_OK_below_threshold _ _ _ _ _ Hallow Hok).
    split; [lia | reflexivity].
  - unfold bind, refill_water, on_attr.
    destruct (WaterTank.refill amount (water_tank m)) as [[?|?] ?]; simpl;
      (split; [assumption | reflexivity]).
  - unfold bind, refill_beans, on_attr.
    destruct (BeanContainer.refill amount (bean_container m)) as [[?|?] ?];
      simpl; (split; [assumption | reflexivity]).
Qed.

Lemma machine_calls_dirty_bound cs : forall m,
  allow_recipe_with_no_requirements (brew_policy m) = false ->
  0 <= clean_threshold (brew_policy m) ->
  dirty_count m <= clean_threshold (brew_policy m) ->
  dirty_count (after_machine_calls cs m) <= clean_threshold (brew_policy m).
Proof.
  induction cs as [|c cs IH]; intros m Hallow Hthr Hd; [exact Hd|].
  rewrite after_machine_calls_cons.
  destruct (machine_call_dirty_bound c m Hallow Hthr Hd) as [Hd' Hbp].
  rewrite <- Hbp. apply IH; rewrite ?Hbp; try assumption.
  rewrite <- Hbp. exact Hd'.
Qed.

End DefaultPolicyMachine.

(** X18. With a constructed [DefaultBrewPolicy] that forbids recipes
    without requirements, the dirty count of a newly built machine never
    exceeds [clean_threshold], whatever is called on it: no more than
    [clean_threshold] brews succeed between two cleanings. *)
Theorem dirty_count_stays_below_threshold :
  forall (CP RP : Type) (CPI : CleaningPolicy CP) (threshold : Z)
         (bp : DefaultBrewPolicy) (tank : WaterTank.t)
         (box : BeanContainer.t) (cp : CP) (rp : RP)
         (cs : list MachineCall),
    DefaultBrewPolicy__init__ threshold false = Returned bp ->
    dirty_count
      (after_machine_calls cs (SimpleCoffeeMachine__init__ tank box bp cp rp))
    <= threshold.
Proof.
  intros CP RP CPI threshold bp tank box cp rp cs Hbp.
  unfold DefaultBrewPolicy__init__ in Hbp.
  destruct (threshold <? 0) eqn:E; [discriminate|].
  injection Hbp as <-.
  apply (machine_calls_dirty_bound cs
           (SimpleCoffeeMachine__init__ tank box
              {| clean_threshold := threshold;
                 allow_recipe_with_no_requirements := false |} cp rp));
    simpl; [reflexivity | lia | lia].
Qed.

Lemma dirty_count_stays_below_threshold_witness :
  let espresso := {| name := "espresso"; water_ml := 30; beans_g := 8;
                     grind := None |} in
  let bp := {| clean_threshold := 2;
               allow_recipe_with_no_requirements := false |} in
  let m := SimpleCoffeeMachine__init__
             {| WaterTank._maximum_level := 500;
                WaterTank._current_level := 150 |}
             {| BeanContainer._maximum_grams := 500;
                BeanContainer._current_grams := 50 |}
             bp
             {| schedule_threshold := 3; immediate_threshold := 6;
                max_time_between_cleans := None |}
             CapRefillPolicy__init__ in
  DefaultBrewPolicy__init__ 2 false = Returned bp
  /\ dirty_count
       (after_machine_calls [SelectRecipe espresso; Brew 1; Brew 2; Brew 3] m)
     <= 2.
Proof.
  intros espresso bp m. split; [reflexivity|].
  apply (dirty_count_stays_below_threshold _ _ _ 2 bp); reflexivity.
Defined.

(** X19. With the default brew policy and a positive [clean_threshold], a
    machine whose brew is refused with NEEDS_CLEANING brews again right
    after [clean]: the next brew returns OK, takes what the recipe requires
    and leaves a dirty count of 1, and [clean] has recorded the time. *)
Theorem clean_lifts_needs_cleaning :
  forall (CP RP : Type) (CPI : CleaningPolicy CP)
         (m : SimpleCoffeeMachine DefaultBrewPolicy CP RP)
         (recipe : CoffeeRecipe) (now now' : Z),
    active_recipe m = Some recipe ->
    0 < clean_threshold (brew_policy m) ->
    fst (brew now m) = Returned NEEDS_CLEANING ->
    let m' := snd ((clean now ;> brew now') m) in
    fst ((clean now ;> brew now') m) = Returned OK
    /\ WaterTank.current_level (water_tank m')
       = WaterTank.current_level (water_tank m)
         - (if requires_water recipe then water_ml recipe else 0)
    /\ BeanContainer.current_level (bean_container m')
       = BeanContainer.current_level (bean_container m)
         - (if requires_beans recipe then beans_g recipe else 0)
    /\ dirty_count m' = 1
    /\ last_cleaned_ts m' = Some now.
Proof.
  intros CP RP CPI m recipe now now' Hrecipe Hthr Hrefused.
  assert (Hdec : can_brew (brew_policy m) recipe
                   (WaterTank.current_level (water_tank m))
                   (BeanContainer.current_level (bean_container m))
                   (Some {[ "dirty_count" := dirty_count m ]})
                 = NEEDS_CLEANING).
  { destruct (decide (can_brew (brew_policy m) recipe
                        (WaterTank.current_level (water_tank m))
                        (BeanContainer.current_level (bean_container m))
                        (Some {[ "dirty_count" := dirty_count m ]}) = OK))
      as [Hok|Hno].
    - destruct (DefaultBrewPolicy_OK_sufficient _ _ _ _ _ Hok) as [Hw Hb].
      rewrite (brew_accepted m recipe now Hrecipe Hok Hw Hb) in Hrefused.
      discriminate.
    - rewrite (brew_refused m recipe now Hrecipe Hno) in Hrefused.
      simpl in Hrefused. congruence. }
  pose proof (DefaultBrewPolicy_cleaning_is_the_last_test _ _ _ _ _ 0
                Hdec Hthr) as Hok.
  destruct (DefaultBrewPolicy_OK_sufficient _ _ _ _ _ Hok) as [Hw Hb].
  intros m'. subst m'. unfold bind at 1 2. unfold clean. py_unfold.
  match goal with
  | |- context [brew now' ?mc] =>
      rewrite (brew_accepted mc recipe now' Hrecipe Hok Hw Hb)
  end.
  simpl. unfold WaterTank.current_level, BeanContainer.current_level.
  destruct (requires_water recipe), (requires_beans recipe); simpl;
    repeat split; lia.
Qed.

Lemma clean_lifts_needs_cleaning_witness :
  let espresso := {| name := "espresso"; water_ml := 30; beans_g := 8;
                     grind := None |} in
  let m : SimpleCoffeeMachine DefaultBrewPolicy DefaultCleaningPolicy
                              CapRefillPolicy :=
    {| water_tank := {| WaterTank._maximum_level := 500;
                        WaterTank._current_level := 150 |};
       bean_container := {| BeanContainer._maximum_grams := 500;
                            BeanContainer._current_grams := 50 |};
       brew_policy := {| clean_threshold := 5;
                         allow_recipe_with_no_requirements := false |};
       cleaning_policy := {| schedule_threshold := 3;
                             immediate_threshold := 6;
                             max_time_between_cleans := None |};
       refill_policy := CapRefillPolicy__init__;
       state := "IDLE";
       active_recipe := Some espresso;
       dirty_count := 5;
       last_cleaned_ts := None;
       cleaning_scheduled := true |} in
  (active_recipe m = Some espresso
   /\ 0 < clean_threshold (brew_policy m)
   /\ fst (brew 10 m) = Returned NEEDS_CLEANING)
  /\ fst ((clean 10 ;> brew 11) m) = Returned OK.
Proof.
  intros espresso m.
  assert (Hrefused : fst (brew 10 m) = Returned NEEDS_CLEANING)
    by (vm_compute; reflexivity).
  split; [split; [reflexivity | split; [simpl; lia | exact Hrefused]] |].
  apply (clean_lifts_needs_cleaning _ _ _ m espresso 10 11 eq_refl);
    [simpl; lia | exact Hrefused].
Defined.

(** X20. [refill_water] changes the tank only: [state], the dirty count,
    the recipe and the beans stay as they were, so a machine refused with
    OUT_OF_WATER still shows that state after the refill.  With the default
    brew policy, once the refilled level covers the recipe the next decision
    is no longer OUT_OF_WATER. *)
Theorem refill_water_lifts_out_of_water :
  forall (CP RP : Type) (CPI : CleaningPolicy CP)
         (m : SimpleCoffeeMachine DefaultBrewPolicy CP RP)
         (recipe : CoffeeRecipe) (amount : Z),
    0 < amount ->
    let m' := snd (refill_water amount m) in
    WaterTank.current_level (water_tank m')
    = Z.min (WaterTank.current_level (water_tank m) + amount)
            (WaterTank.maximum_level (water_tank m))
    /\ state m' = state m
    /\ dirty_count m' = dirty_count m
    /\ active_recipe m' = active_recipe m
    /\ bean_container m' = bean_container m
    /\ cleaning_scheduled m' = cleaning_scheduled m
    /\ (water_ml recipe <= WaterTank.current_level (water_tank m') ->
        can_brew (brew_policy m') recipe
          (WaterTank.current_level (water_tank m'))
          (BeanContainer.current_level (bean_container m'))
          (Some {[ "dirty_count" := dirty_count m' ]}) <> OUT_OF_WATER).
Proof.
  intros CP RP CPI m recipe amount Hpos m'. subst m'.
  assert (Hfinish : forall level,
    water_ml recipe <= level ->
    can_brew (brew_policy m) recipe level
      (BeanContainer.current_level (bean_container m))
      (Some {[ "dirty_count" := dirty_count m ]}) <> OUT_OF_WATER).
  { intros level Hcover.
    unfold can_brew, DefaultBrewPolicy_BrewPolicy, DefaultBrewPolicy_can_brew.
    repeat case_match; try discriminate; lia. }
  unfold refill_water, on_attr.
  destruct (Z_lt_ge_dec (WaterTank.current_level (water_tank m) + amount)
              (WaterTank.maximum_level (water_tank m))) as [Hs|Hs].
  - rewrite WaterTank_refill_partial by assumption. simpl.
    do 6 (split; [first [reflexivity | lia
                        | unfold WaterTank.current_level,
                            WaterTank.maximum_level in *; simpl; lia]|]).
    apply Hfinish.
  - rewrite WaterTank_refill_full by lia. simpl.
    do 6 (split; [first [reflexivity | lia
                        | unfold WaterTank.current_level,
                            WaterTank.maximum_level in *; simpl; lia]|]).
    apply Hfinish.
Qed.

Lemma refill_water_lifts_out_of_water_witness :
  let espresso := {| name := "espresso"; water_ml := 30; beans_g := 8;
                     grind := None |} in
  let m : SimpleCoffeeMachine DefaultBrewPolicy DefaultCleaningPolicy
                              CapRefillPolicy :=
    {| water_tank := {| WaterTank._maximum_level := 500;
                        WaterTank._current_level := 20 |};
       bean_container := {| BeanContainer._maximum_grams := 500;
                            BeanContainer._current_grams := 50 |};
       brew_policy := {| clean_threshold := 5;
                         allow_recipe_with_no_requirements := false |};
       cleaning_policy := {| schedule_threshold := 3;
                             immediate_threshold := 6;
                             max_time_between_cleans := None |};
       refill_policy := CapRefillPolicy__init__;
       state := "OUT_OF_WATER";
       active_recipe := Some espresso;
       dirty_count := 0;
       last_cleaned_ts := None;
       cleaning_scheduled := false |} in
  0 < 100
  /\ WaterTank.current_level (water_tank (snd (refill_water 100 m))) = 120
  /\ state (snd (refill_water 100 m)) = "OUT_OF_WATER".
Proof.
  intros espresso m.
  assert (Hpos : 0 < 100) by lia.
  split; [assumption|].
  pose proof (refill_water_lifts_out_of_water _ _ _ m espresso 100 Hpos)
    as H.
  cbv zeta in H. destruct H as (Hlevel & Hstate & _).
  split; [rewrite Hlevel; reflexivity | rewrite Hstate; reflexivity].
Defined.

(** ** Repeated brewing *)

Section Brewing.
Context {BP CP RP : Type}.
Context `{!BrewPolicy BP, !CleaningPolicy CP}.

Implicit Types (m : SimpleCoffeeMachine BP CP RP) (recipe : CoffeeRecipe).

(** What a brew that returned OK did. *)
Lemma brew_returned_OK m recipe now m' :
  active_recipe m = Some recipe ->
  brew now m = (Returned OK, m') ->
  (requires_water recipe = true ->
   water_ml recipe <= WaterTank.current_level (water_tank m))
  /\ (requires_beans recipe = true ->
      beans_g recipe <= BeanContainer.current_level (bean_container m))
  /\ WaterTank.current_level (water_tank m')
     = WaterTank.current_level (water_tank m)
       - (if requires_water recipe then water_ml recipe else 0)
  /\ BeanContainer.current_level (bean_container m')
     = BeanContainer.current_level (bean_container m)
       - (if requires_beans recipe then beans_g recipe else 0)
  /\ dirty_count m' = dirty_count m + 1
  /\ active_recipe m' = Some recipe.
Proof.
  intros Hrecipe Hbrew.
  destruct (brew_cases m now)
    as [[Hnone E] | (recipe' & Hrecipe' & Hcases)]; [congruence|].
  assert (recipe' = recipe) as -> by congruence.
  destruct Hcases
    as [(Hno & E) | [(_ & _ & _ & E) | [(_ & _ & _ & _ & E)
       | (Hok & Hw & Hb & E)]]]; rewrite E in Hbrew; try discriminate.
  - injection Hbrew as Hd _. contradiction.
  - injection Hbrew as <-. simpl.
    unfold WaterTank.current_level, BeanContainer.current_level in *.
    destruct (requires_water recipe), (requires_beans recipe); simpl;
      repeat split; try assumption; lia.
Qed.

Lemma brew_each_all_OK nows : forall m recipe decisions m',
  active_recipe m = Some recipe ->
  brew_each nows m = (Returned decisions, m') ->
  Forall (eq OK) decisions ->
  0 <= WaterTank.current_level (water_tank m) ->
  0 <= BeanContainer.current_level (bean_container m) ->
  length decisions = length nows
  /\ WaterTank.current_level (water_tank m')
     = WaterTank.current_level (water_tank m)
       - Z.of_nat (length nows)
         * (if requires_water recipe then water_ml recipe else 0)
  /\ BeanContainer.current_level (bean_container m')
     = BeanContainer.current_level (bean_container m)
       - Z.of_nat (length nows)
         * (if requires_beans recipe then beans_g recipe else 0)
  /\ dirty_count m' = dirty_count m + Z.of_nat (length nows)
  /\ 0 <= WaterTank.current_level (water_tank m')
  /\ 0 <= BeanContainer.current_level (bean_container m').
Proof.
  induction nows as [|now rest IH];
    intros m recipe decisions m' Hrecipe Hrun Hall Hw0 Hb0.
  - injection Hrun as <- <-. simpl. repeat split; lia.
  - simpl in Hrun. unfold bind at 1 in Hrun.
    destruct (brew now m) as [[d|e] m1] eqn:Hbrew; [|discriminate].
    unfold bind at 1 in Hrun.
    destruct (brew_each rest m1) as [[ds|e] m2] eqn:Hrest; [|discriminate].
    injection Hrun as <- <-.
    inversion Hall as [|? ? Hd Hds]; subst.
    destruct (brew_returned_OK m recipe now m1 Hrecipe Hbrew)
      as (Hw & Hb & Hw1 & Hb1 & Hd1 & Hr1).
    assert (Hw0' : 0 <= WaterTank.current_level (water_tank m1)).
    { rewrite Hw1. destruct (requires_water recipe) eqn:E; [|lia].
      specialize (Hw eq_refl). lia. }
    assert (Hb0' : 0 <= BeanContainer.current_level (bean_container m1)).
    { rewrite Hb1. destruct (requires_beans recipe) eqn:E; [|lia].
      specialize (Hb eq_refl). lia. }
    destruct (IH m1 recipe ds m2 Hr1 Hrest Hds Hw0' Hb0')
      as (Hlen & Hw2 & Hb2 & Hd2 & Hw3 & Hb3).
    simpl length. rewrite Nat2Z.inj_succ.
    repeat split; try assumption; try lia; simpl; congruence.
Qed.

(** [state] and [cleaning_scheduled] are written by a brew and not read. *)
Lemma brew_ignores_state m s now :
  fst (brew now (set_state s m)) = fst (brew now m)
  /\ (forall d, fst (brew now m) = Returned d ->
      snd (brew now (set_state s m)) = snd (brew now m)).
Proof.
  destruct (brew_cases m now)
    as [[Hnone E] | (recipe & Hrecipe & Hcases)].
  - rewrite E, (brew_without_recipe (set_state s m) now Hnone).
    split; [reflexivity | discriminate].
  - destruct Hcases
      as [(Hno & E) | [(Hok & Hreq & Hshort & E)
         | [(Hok & Hw & Hreq & Hshort & E) | (Hok & Hw & Hb & E)]]];
      rewrite E.
    + rewrite (brew_refused (set_state s m) recipe now Hrecipe Hno).
      split; [reflexivity|]. intros d _. reflexivity.
    + rewrite (brew_water_short (set_state s m) recipe now Hrecipe Hok
                 Hreq Hshort).
      split; [reflexivity | discriminate].
    + rewrite (brew_beans_short (set_state s m) recipe now Hrecipe Hok Hw
                 Hreq Hshort).
      split; [reflexivity | discriminate].
    + rewrite (brew_accepted (set_state s m) recipe now Hrecipe Hok Hw Hb).
      split; [reflexivity|]. intros d _. reflexivity.
Qed.

End Brewing.

(** X21. When every brew of a run returned OK, the run took exactly the
    number of brews times what the recipe requires out of the tank and out
    of the container and added the number of brews to the dirty count; the
    levels stay at or above 0, so a machine never hands out more than it
    held. *)
Theorem successful_brews_add_up :
  forall (BP CP RP : Type) (BPI : BrewPolicy BP) (CPI : CleaningPolicy CP)
         (m m' : SimpleCoffeeMachine BP CP RP) (recipe : CoffeeRecipe)
         (nows : list Z) (decisions : list BrewDecision),
    active_recipe m = Some recipe ->
    0 <= WaterTank.current_level (water_tank m) ->
    0 <= BeanContainer.current_level (bean_container m) ->
    brew_each nows m = (Returned decisions, m') ->
    Forall (eq OK) decisions ->
    let n := Z.of_nat (length nows) in
    let water_each := if requires_water recipe then water_ml recipe else 0 in
    let beans_each := if requires_beans recipe then beans_g recipe else 0 in
    length decisions = length nows
    /\ WaterTank.current_level (water_tank m')
       = WaterTank.current_level (water_tank m) - n * water_each
    /\ BeanContainer.current_level (bean_container m')
       = BeanContainer.current_level (bean_container m) - n * beans_each
    /\ dirty_count m' = dirty_count m + n
    /\ n * water_each <= WaterTank.current_level (water_tank m)
    /\ n * beans_each <= BeanContainer.current_level (bean_container m).
Proof.
  intros BP CP RP BPI CPI m m' recipe nows decisions Hrecipe Hw0 Hb0 Hrun Hall
    n water_each beans_each.
  destruct (brew_each_all_OK nows m recipe decisions m' Hrecipe Hrun Hall
              Hw0 Hb0) as (Hlen & Hw & Hb & Hd & Hw' & Hb').
  subst n water_each beans_each.
  repeat split; try assumption; lia.
Qed.

Lemma successful_brews_add_up_witness :
  let espresso := {| name := "espresso"; water_ml := 30; beans_g := 8;
                     grind := None |} in
  let m : SimpleCoffeeMachine DefaultBrewPolicy DefaultCleaningPolicy
                              CapRefillPolicy :=
    {| water_tank := {| WaterTank._maximum_level := 500;
                        WaterTank._current_level := 150 |};
       bean_container := {| BeanContainer._maximum_grams := 500;
                            BeanContainer._current_grams := 50 |};
       brew_policy := {| clean_threshold := 5;
                         allow_recipe_with_no_requirements := false |};
       cleaning_policy := {| schedule_threshold := 3;
                             immediate_threshold := 6;
                             max_time_between_cleans := None |};
       refill_policy := CapRefillPolicy__init__;
       state := "IDLE";
       active_recipe := Some espresso;
       dirty_count := 0;
       last_cleaned_ts := None;
       cleaning_scheduled := false |} in
  let m' := snd (brew_each [1; 2; 3] m) in
  (active_recipe m = Some espresso
   /\ brew_each [1; 2; 3] m = (Returned [OK; OK; OK], m')
   /\ Forall (eq OK) [OK; OK; OK])
  /\ WaterTank.current_level (water_tank m')
     = WaterTank.current_level (water_tank m) - 3 * 30.
Proof.
  intros espresso m m'.
  assert (Hrun : brew_each [1; 2; 3] m = (Returned [OK; OK; OK], m'))
    by (vm_compute; reflexivity).
  assert (Hall : Forall (eq OK) [OK; OK; OK]) by (repeat constructor).
  split; [split; [reflexivity | split; assumption] |].
  pose proof (successful_brews_add_up _ _ _ _ _ m m' espresso [1; 2; 3]
                [OK; OK; OK] eq_refl) as H.
  cbv zeta in H.
  destruct H as (_ & Hw & _); [simpl; lia | simpl; lia | exact Hrun
                              | exact Hall |].
  exact Hw.
Defined.

(** X22. [brew] is not all-or-nothing when the brew policy answers OK
    without enough beans: for a recipe that requires both, with enough water
    and too few beans, the water is taken, then [NotEnoughBeansError] is
    raised, and the beans, the dirty count and [state] are as before. *)
Theorem brew_keeps_water_taken_when_beans_fail :
  forall (BP CP RP : Type) (BPI : BrewPolicy BP) (CPI : CleaningPolicy CP)
         (m : SimpleCoffeeMachine BP CP RP) (recipe : CoffeeRecipe)
         (now : Z),
    active_recipe m = Some recipe ->
    can_brew (brew_policy m) recipe
      (WaterTank.current_level (water_tank m))
      (BeanContainer.current_level (bean_container m))
      (Some {[ "dirty_count" := dirty_count m ]}) = OK ->
    0 < water_ml recipe <= WaterTank.current_level (water_tank m) ->
    0 < beans_g recipe ->
    BeanContainer.current_level (bean_container m) < beans_g recipe ->
    fst (brew now m) = Raised NotEnoughBeansError
    /\ WaterTank.current_level (water_tank (snd (brew now m)))
       = WaterTank.current_level (water_tank m) - water_ml recipe
    /\ bean_container (snd (brew now m)) = bean_container m
    /\ dirty_count (snd (brew now m)) = dirty_count m
    /\ state (snd (brew now m)) = state m.
Proof.
  intros BP CP RP BPI CPI m recipe now Hrecipe Hok [Hwr Hws] Hbr Hbs.
  rewrite (brew_beans_short m recipe now Hrecipe Hok (fun _ => Hws) Hbr Hbs).
  unfold requires_water. destruct (water_ml recipe >? 0) eqn:E; [|lia].
  simpl. repeat split.
Qed.

Lemma brew_keeps_water_taken_when_beans_fail_witness :
  let espresso := {| name := "espresso"; water_ml := 30; beans_g := 8;
                     grind := None |} in
  let m : SimpleCoffeeMachine TrustingBrewPolicy DefaultCleaningPolicy
                              CapRefillPolicy :=
    {| water_tank := {| WaterTank._maximum_level := 500;
                        WaterTank._current_level := 150 |};
       bean_container := {| BeanContainer._maximum_grams := 500;
                            BeanContainer._current_grams := 5 |};
       brew_policy := TrustingBrewPolicy__init__;
       cleaning_policy := {| schedule_threshold := 3;
                             immediate_threshold := 6;
                             max_time_between_cleans := None |};
       refill_policy := CapRefillPolicy__init__;
       state := "IDLE";
       active_recipe := Some espresso;
       dirty_count := 0;
       last_cleaned_ts := None;
       cleaning_scheduled := false |} in
  active_recipe m = Some espresso
  /\ fst (brew 0 m) = Raised NotEnoughBeansError
  /\ WaterTank.current_level (water_tank (snd (brew 0 m))) = 120.
Proof.
  intros espresso m. split; [reflexivity|].
  destruct (brew_keeps_water_taken_when_beans_fail _ _ _ _ _ m espresso 0
              eq_refl eq_refl) as (Hraised & Hwater & _);
    [simpl; lia | simpl; lia | simpl; lia |].
  split; [exact Hraised | rewrite Hwater; reflexivity].
Defined.

(** X23. [brew] never reads [state]: on two machines that differ in
    [state] only it has the same outcome, and when it returns it leaves the
    same machine.  A machine showing NEEDS_CLEANING or OUT_OF_WATER brews
    like one showing IDLE. *)
Theorem state_does_not_gate_brew :
  forall (BP CP RP : Type) (BPI : BrewPolicy BP) (CPI : CleaningPolicy CP)
         (m : SimpleCoffeeMachine BP CP RP) (shown : string) (now : Z),
    let other :=
      {| water_tank := water_tank m;
         bean_container := bean_container m;
         brew_policy := brew_policy m;
         cleaning_policy := cleaning_policy m;
         refill_policy := refill_policy m;
         state := shown;
         active_recipe := active_recipe m;
         dirty_count := dirty_count m;
         last_cleaned_ts := last_cleaned_ts m;
         cleaning_scheduled := cleaning_scheduled m |} in
    fst (brew now other) = fst (brew now m)
    /\ (forall d, fst (brew now m) = Returned d ->
        snd (brew now other) = snd (brew now m)).
Proof.
  intros BP CP RP BPI CPI m shown now other.
  exact (brew_ignores_state m shown now).
Qed.
